(** * ICY_MCP: the Instagram engagement server of [src/index.ts]

    A shallow embedding of the session handling, the paginated fetch loops,
    the media-id resolution and the aggregation code of the five tool
    handlers, with the properties the specification states about them.

    Conventions of the embedding:
    - a JavaScript [number] that the code uses as a count, an identifier or
      a Unix time is a [Z]; a field that may be [undefined] is an [option];
    - the averages and the engagement rates are IEEE 754 doubles, the
      kernel's [float], with its own division, addition and product; the
      sums they are computed from are kept as integers, which they are
      below 2^53;
    - the shares of the demographics are [number]s: a finite value, held
      as an exact rational, or [NotFinite] for [NaN] and the infinities;
    - [comparisonResults] is a plain object: its own properties and its
      prototype, which an assignment under the key [__proto__] replaces;
    - a [Promise] that rejects, and a [throw], is the [Throw] case of
      [result]; [try]/[catch] is pattern matching on it;
    - the remote client ([IgApiClient]) is a record of responses, and a
      feed is the finite sequence of pages it serves;
    - the parsing of a date string by [Date] is a parameter of the
      report. *)

From Stdlib Require Import ZArith QArith Qround Qabs String Ascii List Bool Lia Lqa.
From Stdlib Require Import Sorted Permutation.
From Stdlib Require PrimFloat FloatOps SpecFloat.
From stdpp Require Import base option list strings gmap.
Import ListNotations.

Local Open Scope string_scope.
Local Open Scope list_scope.
Local Open Scope Z_scope.

(* ===================================================================== *)
(** ** Results and thrown values *)
(* ===================================================================== *)

Inductive result (E A : Type) : Type :=
| Ok (a : A)
| Throw (e : E).
Arguments Ok {E A} a.
Arguments Throw {E A} e.

Definition bind {E A B} (r : result E A) (k : A -> result E B) : result E B :=
  match r with
  | Ok a => k a
  | Throw e => Throw e
  end.

Notation "'do' x <- r ; k" := (bind r (fun x => k))
  (at level 10, x name, r at level 100, k at level 200).

(** The [name] property of the errors of instagram-private-api that the
    source inspects; every other error (a [TypeError], a network failure)
    is [OtherError]. *)
Inductive ErrorName : Type :=
| IgNotFoundError
| IgLoginRequiredError
| IgCheckpointError
| IgRequestsLimitError
| OtherError.

Definition ErrorName_eqb (a b : ErrorName) : bool :=
  match a, b with
  | IgNotFoundError, IgNotFoundError
  | IgLoginRequiredError, IgLoginRequiredError
  | IgCheckpointError, IgCheckpointError
  | IgRequestsLimitError, IgRequestsLimitError
  | OtherError, OtherError => true
  | _, _ => false
  end.

Record JsError : Type := mkJsError { name : ErrorName; message : string }.

Inductive ErrorCode : Type := InvalidParams | InternalError | MethodNotFound.

(** What a handler can throw: an [McpError] it built itself, or an error
    of the remote client passing through. *)
Inductive Thrown : Type :=
| McpError (code : ErrorCode) (msg : string)
| ApiError (e : JsError).

(* ===================================================================== *)
(** ** JavaScript strings and arrays *)
(* ===================================================================== *)

(** [s.startsWith(p)], returning the rest of [s]. *)
Fixpoint strip_prefix (p s : string) : option string :=
  match p with
  | EmptyString => Some s
  | String a p' =>
      match s with
      | EmptyString => None
      | String b s' => if Ascii.eqb a b then strip_prefix p' s' else None
      end
  end.

(** [hay.includes(needle)] *)
Fixpoint includes (hay needle : string) : bool :=
  match strip_prefix needle hay with
  | Some _ => true
  | None =>
      match hay with
      | EmptyString => false
      | String _ hay' => includes hay' needle
      end
  end.

Definition lower_ascii (c : ascii) : ascii :=
  let n := nat_of_ascii c in
  if ((65 <=? n) && (n <=? 90))%nat then ascii_of_nat (n + 32) else c.

(** [s.toLowerCase()] on the ASCII letters. *)
Fixpoint toLowerCase (s : string) : string :=
  match s with
  | EmptyString => EmptyString
  | String c s' => String (lower_ascii c) (toLowerCase s')
  end.

(** [l.join(sep)] *)
Fixpoint join (sep : string) (l : list string) : string :=
  match l with
  | [] => ""
  | [x] => x
  | x :: l' => x +:+ sep +:+ join sep l'
  end.

(** [s.substring(0, n)] for a literal [n >= 0]. *)
Fixpoint substring0 (n : nat) (s : string) : string :=
  match n, s with
  | O, _ => ""
  | _, EmptyString => ""
  | S n', String c s' => String c (substring0 n' s')
  end.

(** Truthiness of a string: [""] is falsy. *)
Definition truthy_string (s : string) : bool :=
  match s with EmptyString => false | _ => true end.

Section Slice.
Context {T : Type}.

(** The relative index of [Array.prototype.slice]: a negative index
    counts from the end, and the result is clamped to [0 .. len]. *)
Definition relative_index (len k : Z) : Z :=
  if k <? 0 then Z.max (len + k) 0 else Z.min k len.

(** [l.slice(start, end)] *)
Definition slice (start end_ : Z) (l : list T) : list T :=
  let len := Z.of_nat (length l) in
  let k := relative_index len start in
  let final := relative_index len end_ in
  take (Z.to_nat (Z.max (final - k) 0)) (drop (Z.to_nat k) l).
End Slice.

(* ===================================================================== *)
(** ** Feeds *)
(* ===================================================================== *)

(** A feed of the remote client, seen from its consumer: each call of
    [items()] requests one page; the page either fails, or arrives and
    [isMoreAvailable()] is false, or arrives and more pages follow. *)
Inductive Feed (T : Type) : Type :=
| FeedThrows (e : JsError)
| FeedLast (page : list T)
| FeedMore (page : list T) (next : Feed T).
Arguments FeedThrows {T} e.
Arguments FeedLast {T} page.
Arguments FeedMore {T} page next.

(** One call of [feed.items()]. *)
Definition items {T} (f : Feed T) : result JsError (list T) :=
  match f with
  | FeedThrows e => Throw e
  | FeedLast page => Ok page
  | FeedMore page _ => Ok page
  end.

(** All items a feed would serve if read to its end. *)
Fixpoint available {T} (f : Feed T) : list T :=
  match f with
  | FeedThrows _ => []
  | FeedLast page => page
  | FeedMore page next => page ++ available next
  end.

(** What a fetch loop leaves behind: the accumulated array and the number
    of pages it requested. *)
Record Fetched (T : Type) : Type :=
  mkFetched { fetched : list T; requests : nat }.
Arguments mkFetched {T} fetched requests.
Arguments fetched {T} f.
Arguments requests {T} f.

Section FetchLoops.
Context {T : Type}.

(** The loop of [handleAnalyzePostComments] and of the account branch of
    [handleExtractDemographics]:
<<
    do {
      const items = await feed.items();
      acc = acc.concat(items);
      count += items.length;
      if (count >= target) break;
      await delay;
    } while (feed.isMoreAvailable());
>>
    In [handleExtractDemographics] the count is [fetchedUsers.length]
    itself. A page that throws ends the loop with that error. *)
Fixpoint fetchLoop (target : Z) (feed : Feed T) (acc : list T) (count : Z)
    (reqs : nat) : result JsError (Fetched T) :=
  match feed with
  | FeedThrows e => Throw e
  | FeedLast page => Ok (mkFetched (acc ++ page) (S reqs))
  | FeedMore page next =>
      let acc' := acc ++ page in
      let count' := count + Z.of_nat (length page) in
      if target <=? count' then Ok (mkFetched acc' (S reqs))
      else fetchLoop target next acc' count' (S reqs)
  end.

(** The loop of [handleGenerateReport], whose [while] repeats the bound:
<<
    do { ...; if (postCount >= maxPostsToFetch) break; ... }
    while (postsFeed.isMoreAvailable() && postCount < maxPostsToFetch);
>> *)
Fixpoint fetchPostsLoop (maxPostsToFetch : Z) (feed : Feed T) (allPosts : list T)
    (postCount : Z) (reqs : nat) : result JsError (Fetched T) :=
  match feed with
  | FeedThrows e => Throw e
  | FeedLast page => Ok (mkFetched (allPosts ++ page) (S reqs))
  | FeedMore page next =>
      let allPosts' := allPosts ++ page in
      let postCount' := postCount + Z.of_nat (length page) in
      if maxPostsToFetch <=? postCount' then Ok (mkFetched allPosts' (S reqs))
      else if true && (postCount' <? maxPostsToFetch)
           then fetchPostsLoop maxPostsToFetch next allPosts' postCount' (S reqs)
           else Ok (mkFetched allPosts' (S reqs))
  end.

(** [comments = comments.slice(0, maxComments)] after the loop of
    [handleAnalyzePostComments]. *)
Definition fetchComments (maxComments : Z) (feed : Feed T) : result JsError (Fetched T) :=
  do r <- fetchLoop maxComments feed [] 0 0;
  Ok (mkFetched (slice 0 maxComments (fetched r)) (requests r)).

(** [users = fetchedUsers.slice(0, sampleSize)] after the loop of the
    account branch of [handleExtractDemographics]. *)
Definition fetchFollowers (sampleSize : Z) (feed : Feed T) : result JsError (Fetched T) :=
  do r <- fetchLoop sampleSize feed [] 0 0;
  Ok (mkFetched (slice 0 sampleSize (fetched r)) (requests r)).

(** [const maxPostsToFetch = 200] *)
Definition maxPostsToFetch : Z := 200.

(** [allPosts] after the loop of [handleGenerateReport]: no [slice]
    follows it. *)
Definition fetchPosts (feed : Feed T) : result JsError (Fetched T) :=
  fetchPostsLoop maxPostsToFetch feed [] 0 0.
End FetchLoops.

(* ===================================================================== *)
(** ** Input validation *)
(* ===================================================================== *)

Definition in_range (lo hi : nat) (c : ascii) : bool :=
  let n := nat_of_ascii c in ((lo <=? n) && (n <=? hi))%nat.

(** [[A-Za-z0-9]] *)
Definition is_alnum (c : ascii) : bool :=
  in_range 65 90 c || in_range 97 122 c || in_range 48 57 c.

(** [[A-Za-z0-9_-]], the characters of a shortcode *)
Definition is_code_char (c : ascii) : bool :=
  is_alnum c || Ascii.eqb c "_" || Ascii.eqb c "-".

(** [[A-Za-z0-9._]], the characters of a handle *)
Definition is_handle_char (c : ascii) : bool :=
  is_alnum c || Ascii.eqb c "." || Ascii.eqb c "_".

Fixpoint forall_chars (p : ascii -> bool) (s : string) : bool :=
  match s with
  | EmptyString => true
  | String c s' => p c && forall_chars p s'
  end.

(** The longest prefix of [s] made of shortcode characters: what the
    greedy group [([A-Za-z0-9_-]+)] captures at the start of [s]. *)
Fixpoint take_code (s : string) : string :=
  match s with
  | EmptyString => EmptyString
  | String c s' => if is_code_char c then String c (take_code s') else EmptyString
  end.

(** [/^https:\/\/(www\.)?instagram\.com\/p\/[A-Za-z0-9_-]+\/?/.test(url)] *)
Definition isValidPostUrl (url : string) : bool :=
  let path (r : string) : bool :=
    match strip_prefix "instagram.com/p/" r with
    | Some c => truthy_string (take_code c)
    | None => false
    end in
  match strip_prefix "https://" url with
  | None => false
  | Some r =>
      match strip_prefix "www." r with
      | Some r' => path r' || path r
      | None => path r
      end
  end.

(** [url.match(/\/p\/([A-Za-z0-9_-]+)/)]: the leftmost place where [/p/]
    is followed by a shortcode character; the result is [match[1]], or
    [''] without a match. *)
Fixpoint extractPostIdFromUrl (url : string) : string :=
  let here :=
    match strip_prefix "/p/" url with
    | Some r => take_code r
    | None => EmptyString
    end in
  if truthy_string here then here
  else match url with
       | EmptyString => EmptyString
       | String _ url' => extractPostIdFromUrl url'
       end.

(** [/^[A-Za-z0-9._]+$/.test(username)] *)
Definition isValidUsername (username : string) : bool :=
  truthy_string username && forall_chars is_handle_char username.

(* ===================================================================== *)
(** ** The data of the remote client *)
(* ===================================================================== *)

(** A user object as the feeds and [ig.user.info] return it. The optional
    fields are those the source tests for presence. *)
Record UserInfo : Type := mkUserInfo {
  pk : Z;
  username : string;
  full_name : string;
  is_private : bool;
  is_verified : bool;
  follower_count : option Z;
  following_count : option Z;
  media_count : option Z;
  biography : option string
}.

Record Comment : Type := mkComment {
  user : UserInfo;
  text : string;
  created_at_utc : Z
}.

Record Post : Type := mkPost {
  code : string;
  like_count : option Z;
  comment_count : option Z;
  taken_at : Z
}.

(** What [ig.media.getByUrl] resolves to; [media_pk] is the [pk] field,
    absent when the response does not carry one. *)
Record MediaInfo : Type := mkMediaInfo { media_pk : option string }.

(** The remote client. Each field is the response of one operation of
    [IgApiClient]; [media_getByUrl] is [None] when the installed library
    has no such method. *)
Record IgClient : Type := mkIgClient {
  account_login : result JsError unit;
  media_getByUrl : option (string -> result JsError (option MediaInfo));
  media_likers : string -> result JsError (option (list UserInfo));
  user_getIdByUsername : string -> result JsError Z;
  user_info : Z -> result JsError UserInfo;
  feed_mediaComments : string -> Feed Comment;
  feed_user : Z -> Feed Post;
  feed_accountFollowers : Z -> Feed UserInfo
}.

(** Truthiness of numbers and of optional fields. *)
Definition truthy_Z (z : Z) : bool := negb (z =? 0).

Definition truthy_opt_Z (o : option Z) : bool :=
  match o with Some z => truthy_Z z | None => false end.

Definition truthy_opt_string (o : option string) : bool :=
  match o with Some s => truthy_string s | None => false end.

Definition defined {A} (o : option A) : bool :=
  match o with Some _ => true | None => false end.

(** [x || 0] on a count *)
Definition or0 (o : option Z) : Z :=
  match o with Some z => z | None => 0 end.

(* ===================================================================== *)
(** ** Session *)
(* ===================================================================== *)

(** The calls [loginToInstagram] makes on the client. *)
Inductive AuthCall : Type := GenerateDevice | AccountLogin.

Record Session : Type := mkSession { isLoggedIn : bool }.

(** [loginToInstagram]: the value it resolves to, the session afterwards
    and the calls made on the client. *)
Definition loginToInstagram (ig : IgClient) (s : Session)
    : bool * Session * list AuthCall :=
  if isLoggedIn s then (true, s, [])
  else
    match account_login ig with
    | Ok _ => (true, mkSession true, [GenerateDevice; AccountLogin])
    | Throw _ => (false, s, [GenerateDevice; AccountLogin])
    end.

(* ===================================================================== *)
(** ** Media-id resolution *)
(* ===================================================================== *)

(** [await this.ig.media.getByUrl(url)]; calling a method that does not
    exist throws a [TypeError]. *)
Definition call_getByUrl (ig : IgClient) (url : string)
    : result JsError (option MediaInfo) :=
  match media_getByUrl ig with
  | Some getByUrl => getByUrl url
  | None => Throw (mkJsError OtherError "this.ig.media.getByUrl is not a function")
  end.

(** [getMediaIdFromUrl]; [None] is [null]. *)
Definition getMediaIdFromUrl (ig : IgClient) (url : string) : option string :=
  let shortcode := extractPostIdFromUrl url in
  if negb (truthy_string shortcode) then None
  else
    let mediaId : option string :=
      match call_getByUrl ig url with
      | Ok mediaInfo =>
          match mediaInfo with
          | Some info =>
              if truthy_opt_string (media_pk info) then media_pk info else None
          | None => None
          end
      | Throw lookupError => Some shortcode
      end in
    if negb (truthy_opt_string mediaId) then None else mediaId.

(* ===================================================================== *)
(** ** Numbers *)
(* ===================================================================== *)

(** A JavaScript number of the rate arithmetic: an IEEE 754 binary64
    value. *)
Definition double : Type := PrimFloat.float.

(** The double of an integer: the nearest one, the integer itself below
    2^53. *)
Definition of_Z (z : Z) : double :=
  FloatOps.SF2Prim (SpecFloat.binary_normalize FloatOps.prec FloatOps.emax z 0 false).

(** The value [m * 2^e] of a finite double, its sign apart. *)
Definition magnitude (m : positive) (e : Z) : Q :=
  if 0 <=? e then inject_Z (Zpos m * 2 ^ e) else Zpos m # Z.to_pos (2 ^ (- e)).

(** The integer [n] of [Number.prototype.toFixed] for 2 digits and a value
    [q >= 0]: the one for which [n / 100 - q] is closest to zero, the
    larger one when there are two. *)
Definition hundredths (q : Q) : Z := Qfloor (q * 100 + (1 # 2)).

Definition SFofZ (z : Z) : SpecFloat.spec_float :=
  match z with
  | Z0 => SpecFloat.S754_zero false
  | Zpos p => SpecFloat.S754_finite false p 0
  | Zneg p => SpecFloat.S754_finite true p 0
  end.

(** [parseFloat] of the decimal string of [n / 100]: the double nearest
    to that quotient. *)
Definition parseHundredths (n : Z) : double :=
  FloatOps.SF2Prim (SpecFloat.SFdiv FloatOps.prec FloatOps.emax (SFofZ n) (SFofZ 100)).

(** The sign that [toFixed] writes before the digits. *)
Definition signed (s : bool) (r : double) : double :=
  if s then PrimFloat.opp r else r.

(** [parseFloat(x.toFixed(2))]. [toFixed] writes ["NaN"] and the
    infinities as they are, a value of 10^21 or more as [String(x)] does,
    and otherwise the sign and the digits of [hundredths]; [parseFloat]
    reads the first three back as [x] and the last as the nearest
    double. *)
Definition toFixed2 (x : double) : double :=
  match FloatOps.Prim2SF x with
  | SpecFloat.S754_finite s m e =>
      if Qle_bool (inject_Z (10 ^ 21)) (magnitude m e) then x
      else signed s (parseHundredths (hundredths (magnitude m e)))
  | SpecFloat.S754_zero _ => PrimFloat.zero
  | _ => x
  end.

(** The numbers the shares of the demographics are. The divisor is a
    finite value, so one [NotFinite] stands for [NaN], [Infinity] and
    [-Infinity]. *)
Inductive number : Type :=
| Finite (q : Q)
| NotFinite.

(** [a / b] for a finite [b]: dividing by zero gives [NaN] or an infinity. *)
Definition num_div (a : number) (b : Q) : number :=
  match a with
  | Finite x => if Qeq_bool b 0 then NotFinite else Finite (x / b)
  | NotFinite => NotFinite
  end.

(** [new Date(ms).toISOString()] throws a [RangeError] outside the range
    of a [Date]; inside it the instant is kept as its milliseconds. *)
Definition toISOString (ms : Z) : result JsError Z :=
  if Z.abs ms <=? 8640000000000000 then Ok ms
  else Throw (mkJsError OtherError "Invalid time value").

Fixpoint mapM {E A B} (f : A -> result E B) (l : list A) : result E (list B) :=
  match l with
  | [] => Ok []
  | x :: l' => do y <- f x; do ys <- mapM f l'; Ok (y :: ys)
  end.

(** [l.includes(s)] on an array of strings *)
Definition array_includes (l : list string) (s : string) : bool :=
  existsb (String.eqb s) l.

(** [posts.reduce((sum, post) => sum + (post.f || 0), 0)] *)
Definition total (f : Post -> option Z) (posts : list Post) : Z :=
  fold_left (fun sum post => sum + or0 (f post)) posts 0.

(** [n > 0] on a field that may be undefined *)
Definition positive (o : option Z) : bool :=
  match o with Some z => 0 <? z | None => false end.

Definition Qlen {A} (l : list A) : Q := inject_Z (Z.of_nat (length l)).

(** [l.length] as a double *)
Definition flen {A} (l : list A) : double := of_Z (Z.of_nat (length l)).

(* ===================================================================== *)
(** ** analyze_post_comments *)
(* ===================================================================== *)

Record AnalyzeCommentsArgs : Type := mkAnalyzeCommentsArgs {
  postUrl : string;
  maxComments : option Z
}.

Record CommentLead : Type := mkCommentLead {
  lead_username : string;
  lead_comment : string
}.

Record SampleComment : Type := mkSampleComment {
  sample_username : string;
  sample_text : string;
  sample_timestamp : Z
}.

Record CommentAnalysis : Type := mkCommentAnalysis {
  totalCommentsFetched : nat;
  sentiment : string;
  topThemes : list string;
  potentialLeads : list CommentLead;
  sampleComments : list SampleComment
}.

Definition analyzeComments (comments : list Comment) : result JsError CommentAnalysis :=
  let leads :=
    map (fun c => mkCommentLead (username (user c)) (substring0 100 (text c)))
        (List.filter (fun c => includes (text c) "interested" || includes (text c) "DM") comments) in
  do samples <-
     mapM (fun c => do t <- toISOString (created_at_utc c * 1000);
                    Ok (mkSampleComment (username (user c)) (substring0 100 (text c)) t))
          (slice 0 5 comments);
  Ok (mkCommentAnalysis (length comments) "neutral" ["general"; "engagement"] leads samples).

Definition handleAnalyzePostComments (ig : IgClient) (args : AnalyzeCommentsArgs)
    : result Thrown CommentAnalysis :=
  let maxComments := default 100 (maxComments args) in
  if negb (isValidPostUrl (postUrl args)) then
    Throw (McpError InvalidParams "Invalid post URL format.")
  else
    match getMediaIdFromUrl ig (postUrl args) with
    | None => Throw (McpError InvalidParams "Could not extract media ID from post URL.")
    | Some mediaId =>
        let body :=
          do r <- fetchComments maxComments (feed_mediaComments ig mediaId);
          analyzeComments (fetched r) in
        match body with
        | Ok analysis => Ok analysis
        | Throw error =>
            if ErrorName_eqb (name error) IgNotFoundError then
              Throw (McpError InvalidParams
                       ("Post with media ID " +:+ mediaId +:+ " not found or access denied."))
            else
              Throw (McpError InternalError
                       ("Failed to fetch or analyze comments: " +:+ message error))
        end
    end.

(* ===================================================================== *)
(** ** compare_accounts *)
(* ===================================================================== *)

Record CompareAccountsArgs : Type := mkCompareAccountsArgs {
  accounts : list string;
  metrics : option (list string)
}.

Record AccountMetrics : Type := mkAccountMetrics {
  userId : Z;
  fullName : string;
  isPrivate : bool;
  isVerified : bool;
  followers : option Z;
  following : option Z;
  posts : option Z;
  engagementRate : option double
}.

(** An entry of [comparisonResults]: the metrics of an account, or
    [{ error: ... }]. *)
Inductive ComparisonEntry : Type :=
| MetricsEntry (m : AccountMetrics)
| ErrorEntry (error : string).

(** The value of [engagementRate] once the recent posts are there. *)
Definition accountEngagement (followerCount : Z) (recentPosts : list Post) : double :=
  if (0 <? length recentPosts)%nat then
    let totalLikes := total like_count recentPosts in
    let totalComments := total comment_count recentPosts in
    let avgLikes := PrimFloat.div (of_Z totalLikes) (flen recentPosts) in
    let avgComments := PrimFloat.div (of_Z totalComments) (flen recentPosts) in
    PrimFloat.mul (PrimFloat.div (PrimFloat.add avgLikes avgComments) (of_Z followerCount))
                  (of_Z 100)
  else of_Z 0.

(** [let engagementRate = 0; if (followerCount > 0) { ... }]: the posts
    are requested only under the guard. *)
Definition compareEngagementRate (ig : IgClient) (userId : Z) (followerCount : option Z)
    : result JsError double :=
  if positive followerCount then
    do recentPosts <- items (feed_user ig userId);
    Ok (accountEngagement (or0 followerCount) recentPosts)
  else Ok (of_Z 0).

(** The body of the [try] of the loop of [handleCompareAccounts]. *)
Definition fetchAccountMetrics (ig : IgClient) (metrics : list string) (username : string)
    : result JsError AccountMetrics :=
  do userId <- user_getIdByUsername ig username;
  do userInfo <- user_info ig userId;
  let followerCount := follower_count userInfo in
  let followingCount := following_count userInfo in
  let postCount := media_count userInfo in
  do engagementRate <- compareEngagementRate ig userId followerCount;
  Ok {| userId := userId;
        fullName := full_name userInfo;
        isPrivate := is_private userInfo;
        isVerified := is_verified userInfo;
        followers := if array_includes metrics "followers" then followerCount else None;
        following := if array_includes metrics "following" then followingCount else None;
        posts := if array_includes metrics "posts" then postCount else None;
        engagementRate :=
          if array_includes metrics "engagement" then Some (toFixed2 engagementRate)
          else None |}.

(** The [catch] of that loop: what is stored for an account that failed. *)
Definition accountError (error : JsError) : ComparisonEntry :=
  if ErrorName_eqb (name error) IgNotFoundError then ErrorEntry "Account not found."
  else ErrorEntry ("Failed to fetch data: " +:+ message error).

Definition compareAccount (ig : IgClient) (metrics : list string) (username : string)
    : ComparisonEntry :=
  match fetchAccountMetrics ig metrics username with
  | Ok m => MetricsEntry m
  | Throw error => accountError error
  end.

Definition defaultMetrics : list string := ["followers"; "engagement"; "posts"].

(** A plain JavaScript object whose values are objects: its own
    properties, which are what the response shows, and its prototype,
    [None] for [Object.prototype]. *)
Record JsObject (V : Type) : Type := mkJsObject {
  own : gmap string V;
  proto : option V
}.
Arguments mkJsObject {V} own proto.
Arguments own {V} j.
Arguments proto {V} j.

(** [{}] *)
Definition emptyObject {V} : JsObject V := mkJsObject ∅ None.

(** [obj[key] = value] for a [value] that is an object. Under the key
    [__proto__] the assignment runs the setter of [Object.prototype]: the
    value becomes the prototype and no own property is made. *)
Definition setProperty {V} (key : string) (value : V) (obj : JsObject V) : JsObject V :=
  if String.eqb key "__proto__" then mkJsObject (own obj) (Some value)
  else mkJsObject (<[key := value]> (own obj)) (proto obj).

Definition handleCompareAccounts (ig : IgClient) (args : CompareAccountsArgs)
    : result Thrown (JsObject ComparisonEntry) :=
  let metrics := default defaultMetrics (metrics args) in
  if (length (accounts args) =? 0)%nat then
    Throw (McpError InvalidParams "At least one account handle must be provided.")
  else if existsb (fun acc => negb (isValidUsername acc)) (accounts args) then
    Throw (McpError InvalidParams "One or more account handles are invalid.")
  else
    Ok (fold_left
          (fun comparisonResults username =>
             setProperty username (compareAccount ig metrics username) comparisonResults)
          (accounts args) emptyObject).

(* ===================================================================== *)
(** ** Resolving [accountOrPostUrl] *)
(* ===================================================================== *)

(** [targetType] with its [targetId]. For an account the source keeps
    [String(userId)] and reads it back with [parseInt(targetId, 10)]; the
    embedding keeps the number. *)
Inductive Target : Type :=
| PostTarget (mediaId : string)
| AccountTarget (userId : Z).

Definition targetName (t : Target) : string :=
  match t with PostTarget _ => "Post" | AccountTarget _ => "Account" end.

(** The first part of [handleExtractDemographics] and of
    [handleIdentifyLeads], the same code in both. *)
Definition resolveTarget (ig : IgClient) (accountOrPostUrl : string) : result Thrown Target :=
  if isValidPostUrl accountOrPostUrl then
    match getMediaIdFromUrl ig accountOrPostUrl with
    | None => Throw (McpError InvalidParams "Could not extract media ID from post URL.")
    | Some mediaId => Ok (PostTarget mediaId)
    end
  else if isValidUsername accountOrPostUrl then
    match user_getIdByUsername ig accountOrPostUrl with
    | Ok userId => Ok (AccountTarget userId)
    | Throw e =>
        if ErrorName_eqb (name e) IgNotFoundError then
          Throw (McpError InvalidParams ("Account " +:+ accountOrPostUrl +:+ " not found."))
        else
          Throw (McpError InternalError
                   ("Failed to get user ID for " +:+ accountOrPostUrl +:+ ": " +:+ message e))
    end
  else
    Throw (McpError InvalidParams
             "Invalid input. Provide a valid Instagram username or post URL.").

(* ===================================================================== *)
(** ** extract_demographics *)
(* ===================================================================== *)

Record ExtractDemographicsArgs : Type := mkExtractDemographicsArgs {
  demo_accountOrPostUrl : string;
  sampleSize : option Z
}.

Record UserProfile : Type := mkUserProfile {
  profile_username : string;
  profile_fullName : string;
  profile_isPrivate : bool
}.

Record Demographics : Type := mkDemographics {
  sampleAnalyzed : nat;
  private_share : number;
  verified_share : number;
  sampleUserProfiles : list UserProfile
}.

Inductive DemographicsResult : Type :=
| NoUsersFound
| DemographicsOf (d : Demographics).

(** [users] of [handleExtractDemographics]: the first batch of likers of
    a post, or the followers of an account read page by page. *)
Definition sampleUsers (ig : IgClient) (sampleSize : Z) (t : Target)
    : result JsError (list UserInfo) :=
  match t with
  | PostTarget targetId =>
      do likersResponse <- media_likers ig targetId;
      let fetchedUsers := default [] likersResponse in
      Ok (slice 0 sampleSize fetchedUsers)
  | AccountTarget userIdNum =>
      do r <- fetchFollowers sampleSize (feed_accountFollowers ig userIdNum);
      Ok (fetched r)
  end.

Definition demographicsOf (users : list UserInfo) : DemographicsResult :=
  if (length users =? 0)%nat then NoUsersFound
  else DemographicsOf
         {| sampleAnalyzed := length users;
            private_share :=
              num_div (Finite (Qlen (List.filter (fun u => is_private u) users))) (Qlen users);
            verified_share :=
              num_div (Finite (Qlen (List.filter (fun u => is_verified u) users))) (Qlen users);
            sampleUserProfiles :=
              map (fun u => mkUserProfile (username u) (full_name u) (is_private u))
                  (slice 0 5 users) |}.

Definition handleExtractDemographics (ig : IgClient) (args : ExtractDemographicsArgs)
    : result Thrown DemographicsResult :=
  let sampleSize := default 50 (sampleSize args) in
  do target <- resolveTarget ig (demo_accountOrPostUrl args);
  match sampleUsers ig sampleSize target with
  | Ok users => Ok (demographicsOf users)
  | Throw error =>
      if ErrorName_eqb (name error) IgNotFoundError then
        Throw (McpError InvalidParams (targetName target +:+ " not found or access denied."))
      else
        Throw (McpError InternalError
                 ("Failed to fetch users for demographic analysis: " +:+ message error))
  end.

(* ===================================================================== *)
(** ** identify_leads *)
(* ===================================================================== *)

Record Criteria : Type := mkCriteria {
  minComments : option Z;
  minFollowers : option Z;
  keywords : option (list string)
}.

Record IdentifyLeadsArgs : Type := mkIdentifyLeadsArgs {
  leads_accountOrPostUrl : string;
  criteria : option Criteria
}.

Definition noCriteria : Criteria := mkCriteria None None None.

(** A value of [usersToAnalyze]: [{ ...user, comments: [...] }]. *)
Record EngagedUser : Type := mkEngagedUser {
  profile : UserInfo;
  comments : list string
}.

(** [usersToAnalyze], a [Map] in insertion order. Its key is
    [String(pk)], which is one-to-one on the numbers a [pk] is, so the
    embedding keys the map by the [pk]. *)
Definition UserMap : Type := list (Z * EngagedUser).

Definition map_has (m : UserMap) (k : Z) : bool :=
  existsb (fun e => fst e =? k) m.

Fixpoint map_get (m : UserMap) (k : Z) : option EngagedUser :=
  match m with
  | [] => None
  | (k', u) :: m' => if k' =? k then Some u else map_get m' k
  end.

(** [usersToAnalyze.get(k).comments.push(text)] *)
Fixpoint push_comment (m : UserMap) (k : Z) (text : string) : UserMap :=
  match m with
  | [] => []
  | (k', u) :: m' =>
      if k' =? k then (k', mkEngagedUser (profile u) (comments u ++ [text])) :: m'
      else (k', u) :: push_comment m' k text
  end.

(** The body of [comments.forEach] in the post branch. *)
Definition addComment (usersToAnalyze : UserMap) (comment : Comment) : UserMap :=
  let userPk := pk (user comment) in
  if negb (map_has usersToAnalyze userPk) then
    usersToAnalyze ++ [(userPk, mkEngagedUser (user comment) [text comment])]
  else push_comment usersToAnalyze userPk (text comment).

(** The body of [followers.forEach] in the account branch. *)
Definition addFollower (usersToAnalyze : UserMap) (follower : UserInfo) : UserMap :=
  let followerPk := pk follower in
  if negb (map_has usersToAnalyze followerPk) then
    usersToAnalyze ++ [(followerPk, mkEngagedUser follower [])]
  else usersToAnalyze.

(** [usersToAnalyze.keys()] *)
Definition keys (m : UserMap) : list Z := map fst m.

Definition aggregateComments (comments : list Comment) : UserMap :=
  fold_left addComment comments [].

Definition aggregateFollowers (followers : list UserInfo) : UserMap :=
  fold_left addFollower followers [].

(** [usersToAnalyze] of [handleIdentifyLeads]: one page of the feed. *)
Definition usersOf (ig : IgClient) (t : Target) : result JsError UserMap :=
  match t with
  | PostTarget targetId =>
      do comments <- items (feed_mediaComments ig targetId);
      Ok (aggregateComments comments)
  | AccountTarget userIdNum =>
      do followers <- items (feed_accountFollowers ig userIdNum);
      Ok (aggregateFollowers followers)
  end.

(** The entries of [reasons]:
    [`Followers: ${follower_count} (>=${minFollowers})`],
    [`Comments: ${userCommentCount} (>=${minComments})`] and
    [`Keywords found: [${foundKeywords.join(', ')}]`]. *)
Inductive Reason : Type :=
| FollowersReason (follower_count minFollowers : Z)
| CommentsReason (userCommentCount minComments : Z)
| KeywordsReason (foundKeywords : list string).

Record Lead : Type := mkLead {
  lead_name : string;
  lead_userId : Z;
  lead_fullName : string;
  lead_followerCount : option Z;
  lead_isPrivate : bool;
  reasons : list Reason;
  sampleComment : option string
}.

(** The two tests that make the loop fetch the full profile. *)
Definition lacksFollowers (c : Criteria) (userInfo : UserInfo) : bool :=
  truthy_opt_Z (minFollowers c) && negb (truthy_opt_Z (follower_count userInfo)).

Definition lacksBiography (c : Criteria) (userInfo : UserInfo) : bool :=
  defined (keywords c) && negb (truthy_opt_string (biography userInfo)).

(** The first [if] of the loop body: [None] is its [continue], otherwise
    the [userInfo] the checks then read. *)
Definition enrich (ig : IgClient) (c : Criteria) (u : EngagedUser) : option UserInfo :=
  let userInfo := profile u in
  if lacksFollowers c userInfo || lacksBiography c userInfo then
    if truthy_Z (pk (profile u)) then
      match user_info ig (pk (profile u)) with
      | Ok info => Some info
      | Throw infoError => if lacksFollowers c userInfo then None else Some userInfo
      end
    else None
  else Some userInfo.

(** [foundKeywords] *)
Definition foundKeywords (kws : list string) (userInfo : UserInfo) (u : EngagedUser)
    : list string :=
  let bio := default "" (biography userInfo) in
  let commentsText := toLowerCase (join " " (comments u)) in
  let bioLower := toLowerCase bio in
  List.filter (fun kw => includes bioLower (toLowerCase kw)
                    || includes commentsText (toLowerCase kw)) kws.

(** The three checks of the loop body on [meetsCriteria] and [reasons]. *)
Definition checkFollowers (c : Criteria) (userInfo : UserInfo)
    (st : bool * list Reason) : bool * list Reason :=
  match minFollowers c with
  | Some mf =>
      if truthy_Z mf then
        match follower_count userInfo with
        | None => (false, snd st)
        | Some fc => if fc <? mf then (false, snd st)
                     else (fst st, snd st ++ [FollowersReason fc mf])
        end
      else st
  | None => st
  end.

Definition checkComments (c : Criteria) (u : EngagedUser)
    (st : bool * list Reason) : bool * list Reason :=
  let userCommentCount := Z.of_nat (length (comments u)) in
  match minComments c with
  | Some mc =>
      if truthy_Z mc then
        if userCommentCount <? mc then (false, snd st)
        else (fst st, snd st ++ [CommentsReason userCommentCount mc])
      else st
  | None => st
  end.

Definition checkKeywords (c : Criteria) (userInfo : UserInfo) (u : EngagedUser)
    (st : bool * list Reason) : bool * list Reason :=
  match keywords c with
  | Some kws =>
      if (0 <? length kws)%nat then
        let found := foundKeywords kws userInfo u in
        if (length found =? 0)%nat then (false, snd st)
        else (fst st, snd st ++ [KeywordsReason found])
      else st
  | None => st
  end.

(** One turn of [for (const user of usersToAnalyze.values())]: the lead
    pushed on [potentialLeads], if any. *)
Definition evaluateUser (ig : IgClient) (c : Criteria) (u : EngagedUser) : option Lead :=
  match enrich ig c u with
  | None => None
  | Some userInfo =>
      let st := checkKeywords c userInfo u
                  (checkComments c u (checkFollowers c userInfo (true, []))) in
      if fst st then
        Some {| lead_name := username userInfo;
                lead_userId := pk userInfo;
                lead_fullName := full_name userInfo;
                lead_followerCount := follower_count userInfo;
                lead_isPrivate := is_private userInfo;
                reasons := snd st;
                sampleComment := substring0 100 <$> head (comments u) |}
      else None
  end.

Definition potentialLeadsOf (ig : IgClient) (c : Criteria) (usersToAnalyze : UserMap)
    : list Lead :=
  omap (fun e => evaluateUser ig c (snd e)) usersToAnalyze.

Definition handleIdentifyLeads (ig : IgClient) (args : IdentifyLeadsArgs)
    : result Thrown (list Lead) :=
  let criteria := default noCriteria (criteria args) in
  do target <- resolveTarget ig (leads_accountOrPostUrl args);
  match usersOf ig target with
  | Ok usersToAnalyze => Ok (slice 0 50 (potentialLeadsOf ig criteria usersToAnalyze))
  | Throw error =>
      if ErrorName_eqb (name error) IgNotFoundError then
        Throw (McpError InvalidParams (targetName target +:+ " not found or access denied."))
      else
        Throw (McpError InternalError
                 ("Failed to process lead identification: " +:+ message error))
  end.

(* ===================================================================== *)
(** ** generate_engagement_report *)
(* ===================================================================== *)

Record GenerateReportArgs : Type := mkGenerateReportArgs {
  account : string;
  startDate : option string;
  endDate : option string
}.

Record ReportSummary : Type := mkReportSummary {
  totalLikes : Z;
  totalComments : Z;
  avgLikesPerPost : double;
  avgCommentsPerPost : double;
  avgEngagementRate : double
}.

Record TopPost : Type := mkTopPost {
  top_url : string;
  top_likes : option Z;
  top_comments : option Z;
  top_timestamp : Z
}.

Inductive Report : Type :=
| NoPostsReport (username : string) (followers : option Z)
| FullReport (userInfo : UserInfo) (postsAnalyzed : nat) (summary : ReportSummary)
             (topPostsByLikes : list TopPost).

(** [avgEngagementRate] of [handleGenerateReport], before [toFixed]. *)
Definition reportEngagement (followerCount : option Z) (recentPosts : list Post) : double :=
  let totalLikes := total like_count recentPosts in
  let totalComments := total comment_count recentPosts in
  let avgLikesPerPost := PrimFloat.div (of_Z totalLikes) (flen recentPosts) in
  let avgCommentsPerPost := PrimFloat.div (of_Z totalComments) (flen recentPosts) in
  if positive followerCount
  then PrimFloat.mul (PrimFloat.div (PrimFloat.add avgLikesPerPost avgCommentsPerPost)
                                    (of_Z (or0 followerCount)))
                     (of_Z 100)
  else of_Z 0.

(** [[...recentPosts].sort((a, b) => (b.like_count || 0) - (a.like_count || 0))],
    a stable sort. *)
Fixpoint insertByLikes (p : Post) (l : list Post) : list Post :=
  match l with
  | [] => [p]
  | q :: l' =>
      if or0 (like_count p) <? or0 (like_count q) then q :: insertByLikes p l'
      else p :: l
  end.

Definition sortByLikes (l : list Post) : list Post := foldr insertByLikes [] l.

(** The entries of [topPostsByLikes], without the caption. *)
Definition topPosts (recentPosts : list Post) : result JsError (list TopPost) :=
  mapM (fun p => do t <- toISOString (taken_at p * 1000);
                 Ok {| top_url := "https://www.instagram.com/p/" +:+ code p +:+ "/";
                       top_likes := like_count p;
                       top_comments := comment_count p;
                       top_timestamp := t |})
       (slice 0 3 (sortByLikes recentPosts)).

(** [request.params.name] with its arguments. *)
Inductive ToolCall : Type :=
| analyze_post_comments (args : AnalyzeCommentsArgs)
| compare_accounts (args : CompareAccountsArgs)
| extract_demographics (args : ExtractDemographicsArgs)
| identify_leads (args : IdentifyLeadsArgs)
| generate_engagement_report (args : GenerateReportArgs)
| unknown_tool (toolName : string).

Inductive ToolResult : Type :=
| CommentAnalysisResult (r : CommentAnalysis)
| AccountComparisonResult (r : JsObject ComparisonEntry)
| DemographicsToolResult (r : DemographicsResult)
| LeadListResult (r : list Lead)
| EngagementReport (r : Report).

Section Runtime.
(** [new Date(s).getTime() / 1000] for a date string [s], a built-in of
    the runtime: [None] when the date is invalid ([NaN]). The dates of
    the documented form, YYYY-MM-DD, are whole seconds. *)
Variable dateSeconds : string -> option Z.

(** [const start = startDate ? new Date(startDate).getTime() / 1000 : null];
    [None] is [null] or [NaN], which the filter treats alike. *)
Definition startOf (startDate : option string) : option Z :=
  match startDate with
  | Some d => if truthy_string d then dateSeconds d else None
  | None => None
  end.

(** [const end = endDate ? new Date(endDate).getTime() / 1000 + (24 * 60 * 60 - 1) : null] *)
Definition endOf (endDate : option string) : option Z :=
  match endDate with
  | Some d =>
      if truthy_string d then (fun t => t + (24 * 60 * 60 - 1)) <$> dateSeconds d
      else None
  | None => None
  end.

(** The predicate of [allPosts.filter]. *)
Definition inPeriod (start end_ : option Z) (post : Post) : bool :=
  let postTimestamp := taken_at post in
  let isAfterStart := if truthy_opt_Z start then or0 start <=? postTimestamp else true in
  let isBeforeEnd := if truthy_opt_Z end_ then postTimestamp <=? or0 end_ else true in
  isAfterStart && isBeforeEnd.

Definition recentPostsOf (args : GenerateReportArgs) (allPosts : list Post) : list Post :=
  List.filter (fun post => inPeriod (startOf (startDate args)) (endOf (endDate args)) post)
         allPosts.

Definition buildReport (args : GenerateReportArgs) (userInfo : UserInfo)
    (allPosts : list Post) : result JsError Report :=
  let recentPosts := recentPostsOf args allPosts in
  if (length recentPosts =? 0)%nat then
    Ok (NoPostsReport (account args) (follower_count userInfo))
  else
    let totalLikes := total like_count recentPosts in
    let totalComments := total comment_count recentPosts in
    let avgLikesPerPost := PrimFloat.div (of_Z totalLikes) (flen recentPosts) in
    let avgCommentsPerPost := PrimFloat.div (of_Z totalComments) (flen recentPosts) in
    let followerCount := follower_count userInfo in
    let avgEngagementRate := reportEngagement followerCount recentPosts in
    do topPostsByLikes <- topPosts recentPosts;
    Ok (FullReport userInfo (length recentPosts)
          {| totalLikes := totalLikes;
             totalComments := totalComments;
             avgLikesPerPost := toFixed2 avgLikesPerPost;
             avgCommentsPerPost := toFixed2 avgCommentsPerPost;
             avgEngagementRate := toFixed2 avgEngagementRate |}
          topPostsByLikes).

Definition handleGenerateReport (ig : IgClient) (args : GenerateReportArgs)
    : result Thrown Report :=
  if negb (isValidUsername (account args)) then
    Throw (McpError InvalidParams "Invalid account handle.")
  else
    let body :=
      do userId <- user_getIdByUsername ig (account args);
      do userInfo <- user_info ig userId;
      do r <- fetchPosts (feed_user ig userId);
      buildReport args userInfo (fetched r) in
    match body with
    | Ok report => Ok report
    | Throw error =>
        if ErrorName_eqb (name error) IgNotFoundError then
          Throw (McpError InvalidParams ("Account " +:+ account args +:+ " not found."))
        else
          Throw (McpError InternalError
                   ("Failed to generate engagement report: " +:+ message error))
    end.

(* =================================================================== *)
(** ** The request handler *)
(* =================================================================== *)

(** The [switch] of the handler of [CallToolRequestSchema]. *)
Definition runTool (ig : IgClient) (call : ToolCall) : result Thrown ToolResult :=
  match call with
  | analyze_post_comments args =>
      do r <- handleAnalyzePostComments ig args; Ok (CommentAnalysisResult r)
  | compare_accounts args =>
      do r <- handleCompareAccounts ig args; Ok (AccountComparisonResult r)
  | extract_demographics args =>
      do r <- handleExtractDemographics ig args; Ok (DemographicsToolResult r)
  | identify_leads args =>
      do r <- handleIdentifyLeads ig args; Ok (LeadListResult r)
  | generate_engagement_report args =>
      do r <- handleGenerateReport ig args; Ok (EngagementReport r)
  | unknown_tool toolName =>
      Throw (McpError MethodNotFound ("Tool " +:+ toolName +:+ " not found"))
  end.

(** The [catch] of the handler: the error rethrown and the session it
    leaves. *)
Definition mapToolError (s : Session) (error : Thrown) : Thrown * Session :=
  match error with
  | McpError c m => (McpError c m, s)
  | ApiError e =>
      match name e with
      | IgNotFoundError =>
          (McpError InvalidParams ("Instagram resource not found: " +:+ message e), s)
      | IgLoginRequiredError | IgCheckpointError =>
          (McpError InternalError
             ("Instagram login required or challenge encountered: " +:+ message e),
           mkSession false)
      | IgRequestsLimitError =>
          (McpError InternalError ("Instagram rate limit hit: " +:+ message e), s)
      | OtherError =>
          (McpError InternalError
             ("An unexpected error occurred while executing the tool: "
              +:+ (if truthy_string (message e) then message e else "Unknown error")), s)
      end
  end.

(** The handler of [CallToolRequestSchema]: what the request resolves
    or rejects with, the session afterwards, and the calls made on the
    client to authenticate. *)
Definition callTool (ig : IgClient) (s : Session) (call : ToolCall)
    : result Thrown ToolResult * Session * list AuthCall :=
  let '(loggedIn, s1, calls) := loginToInstagram ig s in
  if negb loggedIn then
    (Throw (McpError InternalError "Failed to authenticate with Instagram"), s1, calls)
  else
    match runTool ig call with
    | Ok r => (Ok r, s1, calls)
    | Throw error =>
        let '(error', s2) := mapToolError s1 error in (Throw error', s2, calls)
    end.
End Runtime.

(* ===================================================================== *)
(** ** The specification's side *)
(* ===================================================================== *)

(** The pks of a list in the order of their first occurrence. *)
Fixpoint firstOccurrences (l : list Z) : list Z :=
  match l with
  | [] => []
  | x :: l' => x :: List.filter (fun y => negb (y =? x)) (firstOccurrences l')
  end.

(** The texts of the comments of the user [k], in the order of the feed. *)
Definition textsOf (k : Z) (cs : list Comment) : list string :=
  map text (List.filter (fun c => pk (user c) =? k) cs).

(** The record the specification expects for the user [k]: the user
    object of the first comment and all the texts. *)
Definition engagedUserOf (k : Z) (cs : list Comment) : option EngagedUser :=
  match find (fun c => pk (user c) =? k) cs with
  | Some c => Some (mkEngagedUser (user c) (textsOf k cs))
  | None => None
  end.

(** The mean of a count over the posts, [or0] standing for a missing
    one: the sum divided, as doubles, by the number of posts. *)
Definition mean (f : Post -> option Z) (posts : list Post) : double :=
  PrimFloat.div (of_Z (foldr Z.add 0 (map (fun p => or0 (f p)) posts))) (flen posts).

(** [((avgLikes + avgComments) / followerCount) * 100], in doubles. *)
Definition rateFormula (followerCount : Z) (posts : list Post) : double :=
  PrimFloat.mul
    (PrimFloat.div (PrimFloat.add (mean like_count posts) (mean comment_count posts))
                   (of_Z followerCount))
    (of_Z 100).

(** A keyword matches a text when the text contains it, letter case
    apart. *)
Definition matches (kw text : string) : bool :=
  includes (toLowerCase text) (toLowerCase kw).

(** The criteria as the specification words them: an absent criterion
    passes, a threshold passes when reached, the keywords pass when one
    of them matches the biography or one of the comment texts. *)
Definition spec_meetsCriteria (c : Criteria) (userInfo : UserInfo) (u : EngagedUser) : bool :=
  match minFollowers c with
  | None => true
  | Some mf => match follower_count userInfo with
               | Some fc => mf <=? fc
               | None => false
               end
  end
  && match minComments c with
     | None => true
     | Some mc => mc <=? Z.of_nat (length (comments u))
     end
  && match keywords c with
     | None | Some [] => true
     | Some kws =>
         existsb (fun kw => matches kw (default "" (biography userInfo))
                            || existsb (matches kw) (comments u)) kws
     end.

(** The reasons as the specification words them: one for each criterion
    that was specified, the keywords found being those that match the
    biography or one of the comment texts. *)
Definition spec_reasons (c : Criteria) (userInfo : UserInfo) (u : EngagedUser) : list Reason :=
  match minFollowers c with
  | Some mf => [FollowersReason (or0 (follower_count userInfo)) mf]
  | None => []
  end
  ++ match minComments c with
     | Some mc => [CommentsReason (Z.of_nat (length (comments u))) mc]
     | None => []
     end
  ++ match keywords c with
     | None | Some [] => []
     | Some kws =>
         [KeywordsReason
            (List.filter (fun kw => matches kw (default "" (biography userInfo))
                                    || existsb (matches kw) (comments u)) kws)]
     end.

(** A threshold the code takes into account: present and not zero. *)
Definition threshold (o : option Z) : option Z :=
  match o with
  | Some z => if z =? 0 then None else Some z
  | None => None
  end.

(** The criteria of the amended statement: a threshold of 0 counts as
    absent, and the keywords are looked for in the biography and in the
    comment texts joined by single spaces. *)
Definition followersOk (c : Criteria) (userInfo : UserInfo) : bool :=
  match threshold (minFollowers c) with
  | None => true
  | Some mf => match follower_count userInfo with
               | Some fc => mf <=? fc
               | None => false
               end
  end.

Definition commentsOk (c : Criteria) (u : EngagedUser) : bool :=
  match threshold (minComments c) with
  | None => true
  | Some mc => mc <=? Z.of_nat (length (comments u))
  end.

Definition keywordMatches (userInfo : UserInfo) (u : EngagedUser) (kw : string) : bool :=
  matches kw (default "" (biography userInfo)) || matches kw (join " " (comments u)).

Definition keywordsOk (c : Criteria) (userInfo : UserInfo) (u : EngagedUser) : bool :=
  match keywords c with
  | None | Some [] => true
  | Some kws => existsb (keywordMatches userInfo u) kws
  end.

Definition amended_meetsCriteria (c : Criteria) (userInfo : UserInfo) (u : EngagedUser) : bool :=
  followersOk c userInfo && commentsOk c u && keywordsOk c userInfo u.

Definition followersReasons (c : Criteria) (userInfo : UserInfo) : list Reason :=
  match threshold (minFollowers c) with
  | Some mf => [FollowersReason (or0 (follower_count userInfo)) mf]
  | None => []
  end.

Definition commentsReasons (c : Criteria) (u : EngagedUser) : list Reason :=
  match threshold (minComments c) with
  | Some mc => [CommentsReason (Z.of_nat (length (comments u))) mc]
  | None => []
  end.

Definition keywordsReasons (c : Criteria) (userInfo : UserInfo) (u : EngagedUser)
    : list Reason :=
  match keywords c with
  | None | Some [] => []
  | Some kws => [KeywordsReason (List.filter (keywordMatches userInfo u) kws)]
  end.

Definition amended_reasons (c : Criteria) (userInfo : UserInfo) (u : EngagedUser) : list Reason :=
  followersReasons c userInfo ++ commentsReasons c u ++ keywordsReasons c userInfo u.

Definition isFollowersReason (r : Reason) : bool :=
  match r with FollowersReason _ _ => true | _ => false end.

Definition isCommentsReason (r : Reason) : bool :=
  match r with CommentsReason _ _ => true | _ => false end.

Definition isMcpError (e : Thrown) : bool :=
  match e with McpError _ _ => true | ApiError _ => false end.

Definition is_error_entry (e : ComparisonEntry) : bool :=
  match e with ErrorEntry _ => true | MetricsEntry _ => false end.

(* ===================================================================== *)
(** ** Notions for the further properties *)
(* ===================================================================== *)

(** The pages a feed serves, up to its end or to the page that fails. *)
Fixpoint pagesOf {T} (f : Feed T) : list (list T) :=
  match f with
  | FeedThrows _ => []
  | FeedLast page => [page]
  | FeedMore page next => page :: pagesOf next
  end.

(** The number of comment texts held by a user map. *)
Definition commentTotal (m : UserMap) : nat :=
  foldr (fun e n => (length (comments (snd e)) + n)%nat) 0%nat m.

(** Each record of the user map sits under the pk of its own user
    object. *)
Definition filedUnderOwnPk (m : UserMap) : Prop :=
  map (fun e => pk (profile (snd e))) m = keys m.

(** [post.like_count || 0], the key of the ranking of the report. *)
Definition likes (p : Post) : Z := or0 (like_count p).

(** An [McpError] with one of the two codes the handlers use. *)
Definition isToolFailure (e : Thrown) : bool :=
  match e with
  | McpError InvalidParams _ | McpError InternalError _ => true
  | _ => false
  end.

(* ===================================================================== *)
(** ** Data for the examples *)
(* ===================================================================== *)

(** A reading of the dates of the documented form, YYYY-MM-DD, as the
    seconds from the epoch to their midnight in UTC. *)
Definition digit (c : ascii) : option Z :=
  if in_range 48 57 c then Some (Z.of_nat (nat_of_ascii c) - 48) else None.

Definition number2 (a b : ascii) : option Z :=
  match digit a, digit b with
  | Some x, Some y => Some (10 * x + y)
  | _, _ => None
  end.

Definition days_from_civil (y m d : Z) : Z :=
  let y' := if m <=? 2 then y - 1 else y in
  let era := y' / 400 in
  let yoe := y' - era * 400 in
  let doy := (153 * (if 2 <? m then m - 3 else m + 9) + 2) / 5 + d - 1 in
  let doe := yoe * 365 + yoe / 4 - yoe / 100 + doy in
  era * 146097 + doe - 719468.

Definition isoDateSeconds (s : string) : option Z :=
  match s with
  | String y1 (String y2 (String y3 (String y4 (String "-"
      (String m1 (String m2 (String "-" (String d1 (String d2 EmptyString))))))))) =>
      match number2 y1 y2, number2 y3 y4, number2 m1 m2, number2 d1 d2 with
      | Some c, Some y, Some m, Some d =>
          if (1 <=? m) && (m <=? 12) && (1 <=? d) && (d <=? 31)
          then Some (days_from_civil (100 * c + y) m d * 86400)
          else None
      | _, _, _, _ => None
      end
  | _ => None
  end.

Definition unavailable : JsError := mkJsError OtherError "unavailable".

Definition loginRequired : JsError := mkJsError IgLoginRequiredError "login_required".

Definition notFound : JsError := mkJsError IgNotFoundError "User not found".

Definition someUser (k : Z) (handle : string) (followerCount : option Z) : UserInfo :=
  {| pk := k; username := handle; full_name := handle; is_private := false;
     is_verified := false; follower_count := followerCount;
     following_count := Some 10; media_count := Some 300; biography := Some "bio" |}.

Definition somePost : Post :=
  {| code := "Cabc"; like_count := Some 10; comment_count := Some 2;
     taken_at := 1706700000 |}.

(** A client on which every operation fails. *)
Definition offline : IgClient :=
  {| account_login := Throw unavailable;
     media_getByUrl := None;
     media_likers := fun _ => Throw unavailable;
     user_getIdByUsername := fun _ => Throw unavailable;
     user_info := fun _ => Throw unavailable;
     feed_mediaComments := fun _ => FeedThrows unavailable;
     feed_user := fun _ => FeedThrows unavailable;
     feed_accountFollowers := fun _ => FeedThrows unavailable |}.

(** An account with 1000 followers whose posts come in pages of 150. *)
Definition busyAccount : IgClient :=
  {| account_login := Ok tt;
     media_getByUrl := None;
     media_likers := fun _ => Throw unavailable;
     user_getIdByUsername := fun _ => Ok 7;
     user_info := fun _ => Ok (someUser 7 "busy" (Some 1000));
     feed_mediaComments := fun _ => FeedThrows unavailable;
     feed_user := fun _ => FeedMore (repeat somePost 150)
                             (FeedMore (repeat somePost 150) (FeedLast (repeat somePost 150)));
     feed_accountFollowers := fun _ => FeedThrows unavailable |}.

(** A client whose session has expired: the comment feed answers
    [IgLoginRequiredError]. *)
Definition expired : IgClient :=
  {| account_login := Ok tt;
     media_getByUrl := Some (fun _ => Ok (Some (mkMediaInfo (Some "3141592653"))));
     media_likers := fun _ => Throw loginRequired;
     user_getIdByUsername := fun _ => Throw loginRequired;
     user_info := fun _ => Throw loginRequired;
     feed_mediaComments := fun _ => FeedThrows loginRequired;
     feed_user := fun _ => FeedThrows loginRequired;
     feed_accountFollowers := fun _ => FeedThrows loginRequired |}.

(** A client that knows the account [realuser] and no other. *)
Definition oneAccount : IgClient :=
  {| account_login := Ok tt;
     media_getByUrl := None;
     media_likers := fun _ => Throw unavailable;
     user_getIdByUsername :=
       fun h => if String.eqb h "realuser" then Ok 42 else Throw notFound;
     user_info := fun _ => Ok (someUser 42 "realuser" (Some 200));
     feed_mediaComments := fun _ => FeedThrows unavailable;
     feed_user := fun _ => FeedLast [somePost; somePost];
     feed_accountFollowers := fun _ => FeedThrows unavailable |}.

(** An account that has posts and no follower. *)
Definition lonely : IgClient :=
  {| account_login := Ok tt;
     media_getByUrl := None;
     media_likers := fun _ => Throw unavailable;
     user_getIdByUsername := fun _ => Ok 5;
     user_info := fun _ => Ok (someUser 5 "lonely" (Some 0));
     feed_mediaComments := fun _ => FeedThrows unavailable;
     feed_user := fun _ => FeedLast [somePost];
     feed_accountFollowers := fun _ => FeedThrows unavailable |}.

(** A post with three comments of two users; profiles cannot be read. *)
Definition threeComments : list Comment :=
  [mkComment (someUser 8 "bob" None) "nice" 1706700000;
   mkComment (someUser 9 "zed" None) "DM me" 1706700060;
   mkComment (someUser 8 "bob" None) "again" 1706700120].

Definition commented : IgClient :=
  {| account_login := Ok tt;
     media_getByUrl := None;
     media_likers := fun _ => Throw unavailable;
     user_getIdByUsername := fun _ => Throw unavailable;
     user_info := fun _ => Throw unavailable;
     feed_mediaComments := fun _ => FeedLast threeComments;
     feed_user := fun _ => FeedThrows unavailable;
     feed_accountFollowers := fun _ => FeedThrows unavailable |}.

(** A post liked by two users. *)
Definition liked : IgClient :=
  {| account_login := Ok tt;
     media_getByUrl := None;
     media_likers := fun _ => Ok (Some [someUser 8 "bob" None; someUser 9 "zed" None]);
     user_getIdByUsername := fun _ => Throw unavailable;
     user_info := fun _ => Throw unavailable;
     feed_mediaComments := fun _ => FeedThrows unavailable;
     feed_user := fun _ => FeedThrows unavailable;
     feed_accountFollowers := fun _ => FeedThrows unavailable |}.

(** An account with followers whose post feed fails. *)
Definition postsFail : IgClient :=
  {| account_login := Ok tt;
     media_getByUrl := None;
     media_likers := fun _ => Throw unavailable;
     user_getIdByUsername := fun _ => Ok 42;
     user_info := fun _ => Ok (someUser 42 "realuser" (Some 200));
     feed_mediaComments := fun _ => FeedThrows unavailable;
     feed_user := fun _ => FeedThrows unavailable;
     feed_accountFollowers := fun _ => FeedThrows unavailable |}.


(** An account with 160 followers and one post of 23 likes. *)
Definition ratedPost : Post :=
  {| code := "Cabc"; like_count := Some 23; comment_count := None;
     taken_at := 1706700000 |}.


(** A client whose [getByUrl] answers without a [pk]. *)
Definition noPk : IgClient :=
  {| account_login := Ok tt;
     media_getByUrl := Some (fun _ => Ok (Some (mkMediaInfo None)));
     media_likers := fun _ => Throw unavailable;
     user_getIdByUsername := fun _ => Throw unavailable;
     user_info := fun _ => Throw unavailable;
     feed_mediaComments := fun _ => FeedLast [];
     feed_user := fun _ => FeedThrows unavailable;
     feed_accountFollowers := fun _ => FeedThrows unavailable |}.

(* ===================================================================== *)
(** ** Paginated accumulation *)
(* ===================================================================== *)

Section FetchFacts.
Context {T : Type}.
Implicit Types (feed : Feed T) (acc page : list T).

Lemma slice_0_positive (n : Z) (l : list T) :
  0 <= n -> slice 0 n l = take (Z.to_nat n) l.
Proof.
  intros Hn. unfold slice, relative_index.
  assert (Hlen : 0 <= Z.of_nat (length l)) by lia.
  replace (0 <? 0) with false by reflexivity.
  destruct (Z.ltb_spec n 0); [lia|].
  rewrite (Z.min_l 0) by lia. rewrite Z2Nat.inj_0, drop_0.
  rewrite Z.sub_0_r.
  destruct (Z.le_ge_cases n (Z.of_nat (length l))).
  - rewrite Z.min_l by lia. rewrite Z.max_l by lia. reflexivity.
  - rewrite Z.min_r by lia. rewrite Z.max_l by lia.
    rewrite Nat2Z.id. rewrite !take_ge by lia. reflexivity.
Qed.




(** The second test of the [while] of the report never decides. *)
Lemma fetchPostsLoop_fetchLoop target feed acc count reqs :
  fetchPostsLoop target feed acc count reqs = fetchLoop target feed acc count reqs.
Proof.
  revert acc count reqs.
  induction feed as [e|page|page next IH]; intros; simpl; try reflexivity.
  destruct (Z.leb_spec target (count + Z.of_nat (length page))); [reflexivity|].
  destruct (Z.ltb_spec (count + Z.of_nat (length page)) target); [apply IH|lia].
Qed.

(** What the loop has accumulated when it stops: the pages of the feed
    up to the first one that reaches the target. *)
Lemma fetchLoop_accumulates target feed acc reqs r :
  fetchLoop target feed acc (Z.of_nat (length acc)) reqs = Ok r ->
  exists rest, available feed = skipn (length acc) (fetched r) ++ rest
               /\ take (length acc) (fetched r) = acc
               /\ (rest = [] \/ target <= Z.of_nat (length (fetched r))).
Proof.
  revert acc reqs.
  induction feed as [e|page|page next IH]; intros acc reqs; simpl.
  - discriminate.
  - intros [= <-]. simpl. exists []. rewrite drop_app_length, take_app_length, app_nil_r.
    auto.
  - destruct (Z.leb_spec target (Z.of_nat (length acc) + Z.of_nat (length page))).
    + intros [= <-]. simpl. exists (available next).
      rewrite drop_app_length, take_app_length. split; [reflexivity|]. split; [reflexivity|].
      right. rewrite length_app. lia.
    + replace (Z.of_nat (length acc) + Z.of_nat (length page))
        with (Z.of_nat (length (acc ++ page))) by (rewrite length_app; lia).
      intros Hrun. destruct (IH _ _ Hrun) as (rest & Hav & Htk & Hor).
      exists rest.
      assert (Hpre : take (length acc) (fetched r) = acc).
      { rewrite <- (take_app_length acc page) at 2. rewrite <- Htk.
        rewrite take_take. f_equal. rewrite length_app. lia. }
      split; [|split; [exact Hpre|exact Hor]].
      rewrite Hav, app_assoc. f_equal.
      rewrite <- (take_drop (length (acc ++ page)) (fetched r)) at 2.
      rewrite Htk, <- app_assoc, drop_app_length. reflexivity.
Qed.

(** The two loops followed by a [slice] return at most [target] items,
    and exactly [target] of them when the feed holds that many. *)
Lemma fetchComments_truncates target feed r :
  0 < target ->
  fetchComments target feed = Ok r ->
  Z.of_nat (length (fetched r)) <= target
  /\ (target <= Z.of_nat (length (available feed)) ->
      fetched r = take (Z.to_nat target) (available feed)).
Proof.
  intros Hpos. unfold fetchComments.
  destruct (fetchLoop target feed [] 0 0) as [r0|e] eqn:E; simpl; [|discriminate].
  intros [= <-]. simpl.
  rewrite slice_0_positive by lia. split.
  - rewrite length_take. lia.
  - intros Hav.
    destruct (fetchLoop_accumulates target feed [] 0%nat r0 E) as (rest & Heq & _ & Hor).
    simpl in Heq. rewrite drop_0 in Heq. rewrite Heq.
    destruct Hor as [-> | Hlen].
    + rewrite app_nil_r. reflexivity.
    + rewrite take_app_le by lia. reflexivity.
Qed.
End FetchFacts.

(** A concrete run of the two truncating loops: three pages of two
    items and a target of 3. *)
Example fetchComments_three :
  fetchComments 3 (FeedMore [1; 2] (FeedMore [3; 4] (FeedLast [5; 6])))
  = Ok (mkFetched [1; 2; 3] 2).
Proof. reflexivity. Qed.




(** C2 at its failing input: for an account whose posts come in pages
    of 150, the report fetches two pages, stops because 300 >= 200, and
    analyses all 300 posts: the overshoot of the last page is kept. *)
Theorem report_keeps_overshoot :
  (exists r, fetchPosts (feed_user busyAccount 7) = Ok r
             /\ length (fetched r) = 300%nat /\ requests r = 2%nat)
  /\ exists userInfo summary top,
       handleGenerateReport isoDateSeconds busyAccount (mkGenerateReportArgs "busy" None None)
       = Ok (FullReport userInfo 300 summary top).
Proof.
  split.
  - eexists. split; [vm_compute; reflexivity|]. split; reflexivity.
  - do 3 eexists. vm_compute. reflexivity.
Qed.

(* ===================================================================== *)
(** ** Deduplication of users *)
(* ===================================================================== *)

Section FirstOccurrences.
Lemma in_firstOccurrences (l : list Z) (x : Z) :
  In x (firstOccurrences l) <-> In x l.
Proof.
  induction l as [|a l IH]; simpl; [tauto|].
  rewrite filter_In, IH.
  destruct (Z.eqb_spec x a) as [->|Hne]; simpl; [tauto|].
  intuition congruence.
Qed.

Lemma existsb_firstOccurrences (l : list Z) (x : Z) :
  existsb (Z.eqb x) (firstOccurrences l) = existsb (Z.eqb x) l.
Proof.
  apply eq_true_iff_eq. rewrite !existsb_exists.
  split; intros (y & Hin & Hy); exists y; (split; [|exact Hy]);
    apply in_firstOccurrences; exact Hin.
Qed.

(** A pk met again leaves the order alone; a new one goes last. *)
Lemma firstOccurrences_snoc (l : list Z) (x : Z) :
  firstOccurrences (l ++ [x])
  = if existsb (Z.eqb x) l then firstOccurrences l else firstOccurrences l ++ [x].
Proof.
  induction l as [|a l IH]; simpl; [reflexivity|].
  rewrite IH. destruct (Z.eqb_spec x a) as [->|Hne]; simpl.
  - destruct (existsb (Z.eqb a) l); [reflexivity|].
    rewrite List.filter_app. simpl. rewrite Z.eqb_refl. simpl.
    rewrite app_nil_r. reflexivity.
  - destruct (existsb (Z.eqb x) l); [reflexivity|].
    rewrite List.filter_app. simpl.
    destruct (Z.eqb_spec x a); [contradiction|]. reflexivity.
Qed.

Lemma NoDup_firstOccurrences (l : list Z) : List.NoDup (firstOccurrences l).
Proof.
  induction l as [|a l IH]; simpl; constructor.
  - rewrite filter_In. rewrite Z.eqb_refl. simpl. intros [_ H]. discriminate.
  - apply List.NoDup_filter. exact IH.
Qed.
End FirstOccurrences.

Section UserMapFacts.
Implicit Types (m : UserMap) (k : Z).

Lemma map_has_keys m k : map_has m k = existsb (Z.eqb k) (keys m).
Proof.
  unfold map_has, keys.
  induction m as [|[k' u] m IH]; simpl; [reflexivity|].
  rewrite IH, (Z.eqb_sym k' k). reflexivity.
Qed.

Lemma map_has_get m k : map_has m k = defined (map_get m k).
Proof.
  unfold map_has.
  induction m as [|[k' u] m IH]; simpl; [reflexivity|].
  destruct (k' =? k); simpl; [reflexivity|exact IH].
Qed.

Lemma keys_push_comment m k t : keys (push_comment m k t) = keys m.
Proof.
  unfold keys.
  induction m as [|[k' u] m IH]; simpl; [reflexivity|].
  destruct (k' =? k); simpl; [reflexivity|]. f_equal. exact IH.
Qed.

Lemma map_get_push_comment m k t k0 :
  map_get (push_comment m k t) k0
  = if k0 =? k
    then (fun u => mkEngagedUser (profile u) (comments u ++ [t])) <$> map_get m k
    else map_get m k0.
Proof.
  induction m as [|[k' u] m IH]; simpl.
  - destruct (k0 =? k); reflexivity.
  - destruct (Z.eqb_spec k' k) as [->|Hne]; simpl.
    + destruct (Z.eqb_spec k k0) as [->|Hne]; simpl.
      * rewrite Z.eqb_refl. reflexivity.
      * destruct (Z.eqb_spec k0 k); [congruence|reflexivity].
    + destruct (Z.eqb_spec k' k0) as [->|Hne0]; simpl.
      * destruct (Z.eqb_spec k0 k); [congruence|reflexivity].
      * exact IH.
Qed.

Lemma map_get_snoc m k u k0 :
  map_get (m ++ [(k, u)]) k0
  = match map_get m k0 with
    | Some v => Some v
    | None => if k =? k0 then Some u else None
    end.
Proof.
  induction m as [|[k' v] m IH]; simpl; [reflexivity|].
  destruct (k' =? k0); [reflexivity|exact IH].
Qed.

Lemma find_snoc {A} (f : A -> bool) (l : list A) (x : A) :
  find f (l ++ [x])
  = match find f l with
    | Some y => Some y
    | None => if f x then Some x else None
    end.
Proof.
  induction l as [|a l IH]; simpl; [reflexivity|].
  destruct (f a); [reflexivity|exact IH].
Qed.

Lemma find_none_filter {A} (f : A -> bool) (l : list A) :
  find f l = None -> List.filter f l = [].
Proof.
  induction l as [|a l IH]; simpl; [reflexivity|].
  destruct (f a); [discriminate|exact IH].
Qed.

Lemma aggregateComments_snoc cs c :
  aggregateComments (cs ++ [c]) = addComment (aggregateComments cs) c.
Proof. unfold aggregateComments. rewrite fold_left_app. reflexivity. Qed.

Lemma aggregateFollowers_snoc fs f :
  aggregateFollowers (fs ++ [f]) = addFollower (aggregateFollowers fs) f.
Proof. unfold aggregateFollowers. rewrite fold_left_app. reflexivity. Qed.

Lemma keys_snoc m k u : keys (m ++ [(k, u)]) = keys m ++ [k].
Proof. unfold keys. rewrite map_app. reflexivity. Qed.

Lemma keys_aggregateComments cs :
  keys (aggregateComments cs) = firstOccurrences (map (fun c => pk (user c)) cs).
Proof.
  induction cs as [|c cs IH] using rev_ind; [reflexivity|].
  rewrite aggregateComments_snoc, map_app. cbn [map].
  rewrite firstOccurrences_snoc. unfold addComment.
  rewrite map_has_keys, IH, existsb_firstOccurrences.
  destruct (existsb (Z.eqb (pk (user c))) (map _ cs)); simpl.
  - rewrite keys_push_comment. exact IH.
  - rewrite keys_snoc, IH. reflexivity.
Qed.

Lemma keys_aggregateFollowers fs :
  keys (aggregateFollowers fs) = firstOccurrences (map pk fs).
Proof.
  induction fs as [|f fs IH] using rev_ind; [reflexivity|].
  rewrite aggregateFollowers_snoc, map_app. cbn [map].
  rewrite firstOccurrences_snoc. unfold addFollower.
  rewrite map_has_keys, IH, existsb_firstOccurrences.
  destruct (existsb (Z.eqb (pk f)) (map pk fs)); simpl.
  - exact IH.
  - rewrite keys_snoc, IH. reflexivity.
Qed.

Lemma map_get_aggregateComments cs :
  forall k, map_get (aggregateComments cs) k = engagedUserOf k cs.
Proof.
  induction cs as [|c cs IH] using rev_ind; intros k; [reflexivity|].
  rewrite aggregateComments_snoc. unfold addComment.
  rewrite map_has_get, (IH (pk (user c))).
  unfold engagedUserOf at 2. unfold textsOf.
  rewrite find_snoc, List.filter_app, map_app. simpl.
  destruct (Z.eqb_spec (pk (user c)) k) as [Heq|Hne].
  - subst k. unfold engagedUserOf at 1.
    destruct (find (fun c0 => pk (user c0) =? pk (user c)) cs) as [c1|] eqn:Ef; simpl.
    + rewrite map_get_push_comment, Z.eqb_refl, IH.
      unfold engagedUserOf, textsOf. rewrite Ef. reflexivity.
    + rewrite map_get_snoc, IH. unfold engagedUserOf.
      rewrite Ef, Z.eqb_refl, (find_none_filter _ _ Ef). reflexivity.
  - rewrite app_nil_r.
    destruct (defined (engagedUserOf (pk (user c)) cs)); simpl.
    + rewrite map_get_push_comment.
      destruct (Z.eqb_spec k (pk (user c))); [congruence|].
      rewrite IH. unfold engagedUserOf, textsOf. destruct (find _ cs); reflexivity.
    + rewrite map_get_snoc, IH.
      destruct (Z.eqb_spec (pk (user c)) k); [congruence|].
      unfold engagedUserOf, textsOf. destruct (find _ cs); reflexivity.
Qed.
End UserMapFacts.

(** C3: in the aggregation of [handleIdentifyLeads] two comments of the
    user 123 with the texts "a" and "b" give one record whose comments
    are ["a"; "b"]; for every page of comments (and of followers) no pk
    occurs twice among the keys of the user map, the keys are the pks in
    the order of their first occurrence, and the record of a pk holds the
    user object of its first comment and the texts of all its comments in
    the order of the feed. *)
Theorem users_deduplicated_by_pk :
  aggregateComments [mkComment (someUser 123 "ann" None) "a" 1706700000;
                     mkComment (someUser 123 "ann" None) "b" 1706700060]
  = [(123, mkEngagedUser (someUser 123 "ann" None) ["a"; "b"])]
  /\ (forall cs : list Comment,
        List.NoDup (keys (aggregateComments cs))
        /\ keys (aggregateComments cs) = firstOccurrences (map (fun c => pk (user c)) cs)
        /\ forall k, map_get (aggregateComments cs) k = engagedUserOf k cs)
  /\ (forall fs : list UserInfo,
        List.NoDup (keys (aggregateFollowers fs))
        /\ keys (aggregateFollowers fs) = firstOccurrences (map pk fs)).
Proof.
  split; [reflexivity|]. split.
  - intros cs. rewrite keys_aggregateComments.
    split; [apply NoDup_firstOccurrences|]. split; [reflexivity|].
    intros k. apply map_get_aggregateComments.
  - intros fs. rewrite keys_aggregateFollowers.
    split; [apply NoDup_firstOccurrences|reflexivity].
Qed.

(* ===================================================================== *)
(** ** Engagement rate *)
(* ===================================================================== *)

Section RateFacts.

Lemma Qlen_nonzero {A} (l : list A) : l <> [] -> Qeq_bool (Qlen l) 0 = false.
Proof.
  intros H. destruct l as [|a l]; [contradiction|]. reflexivity.
Qed.








End RateFacts.

(** The rate of 23 likes for 160 followers: the product is the double
    14.374999999999998, and [toFixed] writes 14.37. *)
Example toFixed2_of_a_rate :
  toFixed2 (rateFormula 160 [ratedPost]) = parseHundredths 1437.
Proof. vm_compute. reflexivity. Qed.



(* ===================================================================== *)
(** ** Lead criteria *)
(* ===================================================================== *)

Section CriteriaFacts.
Implicit Types (c : Criteria) (userInfo : UserInfo) (u : EngagedUser)
               (st : bool * list Reason).

Lemma checkFollowers_spec c userInfo st :
  checkFollowers c userInfo st
  = if followersOk c userInfo then (fst st, snd st ++ followersReasons c userInfo)
    else (false, snd st).
Proof.
  unfold checkFollowers, followersOk, followersReasons.
  destruct (minFollowers c) as [mf|]; simpl; [|rewrite app_nil_r; destruct st; reflexivity].
  unfold truthy_Z. destruct (mf =? 0); simpl; [rewrite app_nil_r; destruct st; reflexivity|].
  destruct (follower_count userInfo) as [fc|]; simpl; [|reflexivity].
  rewrite Z.leb_antisym. destruct (fc <? mf); reflexivity.
Qed.

Lemma checkComments_spec c u st :
  checkComments c u st
  = if commentsOk c u then (fst st, snd st ++ commentsReasons c u)
    else (false, snd st).
Proof.
  unfold checkComments, commentsOk, commentsReasons.
  destruct (minComments c) as [mc|]; simpl; [|rewrite app_nil_r; destruct st; reflexivity].
  unfold truthy_Z. destruct (mc =? 0); simpl; [rewrite app_nil_r; destruct st; reflexivity|].
  rewrite Z.leb_antisym. destruct (_ <? mc); reflexivity.
Qed.

Lemma filter_empty_existsb {A} (f : A -> bool) (l : list A) :
  (length (List.filter f l) =? 0)%nat = negb (existsb f l).
Proof.
  induction l as [|a l IH]; simpl; [reflexivity|].
  destruct (f a); simpl; [reflexivity|exact IH].
Qed.

Lemma foundKeywords_spec kws userInfo u :
  foundKeywords kws userInfo u = List.filter (keywordMatches userInfo u) kws.
Proof. reflexivity. Qed.

Lemma checkKeywords_spec c userInfo u st :
  checkKeywords c userInfo u st
  = if keywordsOk c userInfo u then (fst st, snd st ++ keywordsReasons c userInfo u)
    else (false, snd st).
Proof.
  unfold checkKeywords, keywordsOk, keywordsReasons.
  destruct (keywords c) as [kws0|]; [|rewrite app_nil_r; destruct st; reflexivity].
  destruct kws0 as [|kw kws]; [simpl; rewrite app_nil_r; destruct st; reflexivity|].
  change (0 <? length (kw :: kws))%nat with true. cbv iota.
  rewrite foundKeywords_spec, filter_empty_existsb.
  destruct (existsb (keywordMatches userInfo u) (kw :: kws)); reflexivity.
Qed.

Lemma evaluateUser_enriched ig c u userInfo :
  enrich ig c u = Some userInfo ->
  evaluateUser ig c u
  = if amended_meetsCriteria c userInfo u then
      Some {| lead_name := username userInfo;
              lead_userId := pk userInfo;
              lead_fullName := full_name userInfo;
              lead_followerCount := follower_count userInfo;
              lead_isPrivate := is_private userInfo;
              reasons := amended_reasons c userInfo u;
              sampleComment := substring0 100 <$> head (comments u) |}
    else None.
Proof.
  intros H. unfold evaluateUser. rewrite H.
  rewrite checkKeywords_spec, checkComments_spec, checkFollowers_spec.
  unfold amended_meetsCriteria, amended_reasons.
  destruct (followersOk c userInfo), (commentsOk c u), (keywordsOk c userInfo u);
    simpl; try reflexivity.
  rewrite <- app_assoc. reflexivity.
Qed.
End CriteriaFacts.

(** C5 as the specification states it fails twice. A keyword with a space
    that no comment contains is found in the comments joined by spaces:
    the user is a lead although no keyword matches the biography or one of
    the comment texts. And with [minFollowers = 0], a criterion that is
    specified and satisfied by a user with 5 followers, the lead carries
    no reason for it. *)
Lemma lead_criteria_counterexample :
  let u := mkEngagedUser (someUser 9 "zed" (Some 5)) ["a"; "b"] in
  (defined (evaluateUser offline (mkCriteria None None (Some ["a b"])) u) = true
   /\ spec_meetsCriteria (mkCriteria None None (Some ["a b"])) (profile u) u = false)
  /\ (exists lead, evaluateUser offline (mkCriteria None (Some 0) None) u = Some lead
                   /\ spec_meetsCriteria (mkCriteria None (Some 0) None) (profile u) u = true
                   /\ reasons lead = []
                   /\ spec_reasons (mkCriteria None (Some 0) None) (profile u) u
                      = [FollowersReason 5 0]).
Proof.
  split.
  - split; reflexivity.
  - eexists. split; [reflexivity|]. repeat split; reflexivity.
Qed.

(** C5 (amended): for a user whose profile the loop of
    [handleIdentifyLeads] has in hand after its detail fetch, the user is
    pushed as a lead iff (minFollowers is absent or 0, or the follower
    count is present and [>= minFollowers]) and (minComments is absent or
    0, or the number of comments is [>= minComments]) and (keywords is
    absent or empty, or one keyword occurs, letter case apart, in the
    biography or in the comment texts joined by single spaces); the
    reasons of the lead are one entry for each criterion that is present
    and not 0 (not empty, for the keywords), in the order followers,
    comments, keywords; a user the detail fetch skips is not a lead. *)
Theorem lead_criteria_as_applied (ig : IgClient) (c : Criteria) (u : EngagedUser) :
  (forall userInfo,
      enrich ig c u = Some userInfo ->
      defined (evaluateUser ig c u) = amended_meetsCriteria c userInfo u
      /\ forall lead, evaluateUser ig c u = Some lead ->
                      reasons lead = amended_reasons c userInfo u)
  /\ (enrich ig c u = None -> evaluateUser ig c u = None).
Proof.
  split.
  - intros userInfo H. rewrite (evaluateUser_enriched _ _ _ _ H).
    destruct (amended_meetsCriteria c userInfo u); simpl.
    + split; [reflexivity|]. intros lead [= <-]. reflexivity.
    + split; [reflexivity|]. discriminate.
  - intros H. unfold evaluateUser. rewrite H. reflexivity.
Qed.

(** The example of the specification: 150 followers, three comments of
    which one holds "Demo product", against minFollowers = 100,
    minComments = 2 and keywords = ["demo"]. *)
Lemma lead_criteria_as_applied_witness :
  let c := mkCriteria (Some 2) (Some 100) (Some ["demo"]) in
  let userInfo := someUser 9 "zed" (Some 150) in
  let u := mkEngagedUser userInfo ["hi"; "Demo product"; "thanks"] in
  defined (evaluateUser offline c u) = true
  /\ forall lead, evaluateUser offline c u = Some lead ->
                  reasons lead = [FollowersReason 150 100; CommentsReason 3 2;
                                  KeywordsReason ["demo"]].
Proof.
  intros c userInfo u.
  exact (proj1 (lead_criteria_as_applied offline c u) userInfo eq_refl).
Defined.

(** C10: a criterion given as 0 is treated as an absent one. With
    [minFollowers = 0] (and likewise with [minComments = 0]) the check
    leaves [meetsCriteria] and [reasons] as they were, the detail fetch is
    decided as without the criterion, every user is evaluated to the same
    lead or none as without it, the handler returns the same leads, and no
    lead carries a reason for it. *)
Theorem zero_criterion_as_absent (ig : IgClient) (mc mf : option Z)
    (kws : option (list string)) (u : EngagedUser) :
  (forall userInfo st, checkFollowers (mkCriteria mc (Some 0) kws) userInfo st = st)
  /\ (forall input,
         handleIdentifyLeads ig (mkIdentifyLeadsArgs input (Some (mkCriteria mc (Some 0) kws)))
         = handleIdentifyLeads ig (mkIdentifyLeadsArgs input (Some (mkCriteria mc None kws))))
  /\ (forall input,
         handleIdentifyLeads ig (mkIdentifyLeadsArgs input (Some (mkCriteria (Some 0) mf kws)))
         = handleIdentifyLeads ig (mkIdentifyLeadsArgs input (Some (mkCriteria None mf kws))))
  /\ (forall st, checkComments (mkCriteria (Some 0) mf kws) u st = st)
  /\ enrich ig (mkCriteria mc (Some 0) kws) u = enrich ig (mkCriteria mc None kws) u
  /\ evaluateUser ig (mkCriteria mc (Some 0) kws) u = evaluateUser ig (mkCriteria mc None kws) u
  /\ evaluateUser ig (mkCriteria (Some 0) mf kws) u = evaluateUser ig (mkCriteria None mf kws) u
  /\ match evaluateUser ig (mkCriteria mc (Some 0) kws) u with
     | Some lead => existsb isFollowersReason (reasons lead) = false
     | None => True
     end
  /\ match evaluateUser ig (mkCriteria (Some 0) mf kws) u with
     | Some lead => existsb isCommentsReason (reasons lead) = false
     | None => True
     end.
Proof.
  split; [reflexivity|]. split; [reflexivity|]. split; [reflexivity|].
  split; [reflexivity|]. split; [reflexivity|]. split; [reflexivity|].
  split; [reflexivity|]. split.
  - destruct (enrich ig (mkCriteria mc (Some 0) kws) u) as [userInfo|] eqn:E.
    + rewrite (evaluateUser_enriched _ _ _ _ E).
      destruct (amended_meetsCriteria _ userInfo u); [|exact I]. simpl.
      unfold amended_reasons, followersReasons, commentsReasons, keywordsReasons. simpl.
      destruct (threshold mc); destruct kws as [[|kw kws]|]; reflexivity.
    + unfold evaluateUser. rewrite E. exact I.
  - destruct (enrich ig (mkCriteria (Some 0) mf kws) u) as [userInfo|] eqn:E.
    + rewrite (evaluateUser_enriched _ _ _ _ E).
      destruct (amended_meetsCriteria _ userInfo u); [|exact I]. simpl.
      unfold amended_reasons, followersReasons, commentsReasons, keywordsReasons. simpl.
      destruct (threshold mf); destruct kws as [[|kw kws]|]; reflexivity.
    + unfold evaluateUser. rewrite E. exact I.
Qed.

(* ===================================================================== *)
(** ** Date range of the report *)
(* ===================================================================== *)

Section PeriodFacts.
Variable dateSeconds : string -> option Z.

Lemma truthy_string_nonempty (d : string) : d <> "" -> truthy_string d = true.
Proof. destruct d; [contradiction|reflexivity]. Qed.

(** The lower bound of the filter, for a start date that is a day. *)
Lemma isAfterStart_spec (d : string) (s ts : Z) :
  d <> "" -> dateSeconds d = Some s -> 0 <= ts ->
  (if truthy_opt_Z (startOf dateSeconds (Some d))
   then or0 (startOf dateSeconds (Some d)) <=? ts else true) = (s <=? ts).
Proof.
  intros Hd Hs Hts. unfold startOf. rewrite truthy_string_nonempty, Hs by exact Hd.
  simpl. unfold truthy_Z. destruct (Z.eqb_spec s 0) as [->|Hne]; simpl; [|reflexivity].
  symmetry. apply Z.leb_le. exact Hts.
Qed.

(** The upper bound of the filter, for an end date that is a day. *)
Lemma isBeforeEnd_spec (d : string) (e ts : Z) :
  d <> "" -> dateSeconds d = Some e -> e mod 86400 = 0 ->
  (if truthy_opt_Z (endOf dateSeconds (Some d))
   then ts <=? or0 (endOf dateSeconds (Some d)) else true) = (ts <=? e + 86399).
Proof.
  intros Hd He Hday. unfold endOf. rewrite truthy_string_nonempty, He by exact Hd.
  simpl. change (24 * 60 * 60 - 1) with 86399. unfold truthy_Z.
  destruct (Z.eqb_spec (e + 86399) 0) as [H0|Hne]; simpl; [|reflexivity].
  exfalso. replace e with (-86399) in Hday by lia. discriminate Hday.
Qed.
End PeriodFacts.

(** C6: the date range of [handleGenerateReport]. For posts taken at or
    after the epoch, and start and end dates that, when given, are
    non-empty strings that denote a date (for endDate the midnight of a
    day, a multiple of 86400 seconds), a fetched post is kept iff its timestamp is [>=] the start
    of startDate (when given) and [<=] the timestamp of endDate plus 86399
    seconds (when given); an absent date puts no bound on its side. So a
    post taken at 23:59:59 of endDate is kept and one taken a second later
    is dropped. *)
Theorem date_range_filter (dateSeconds : string -> option Z) (args : GenerateReportArgs) :
  (forall d, startDate args = Some d -> d <> "" /\ exists s, dateSeconds d = Some s) ->
  (forall d, endDate args = Some d ->
             d <> "" /\ exists e, dateSeconds d = Some e /\ e mod 86400 = 0) ->
  (forall (allPosts : list Post) (post : Post),
      0 <= taken_at post ->
      (In post (recentPostsOf dateSeconds args allPosts) <->
       In post allPosts
       /\ (forall d s, startDate args = Some d -> dateSeconds d = Some s ->
                       s <= taken_at post)
       /\ (forall d e, endDate args = Some d -> dateSeconds d = Some e ->
                       taken_at post <= e + 86399)))
  /\ (forall d e lastSecond nextSecond,
         startDate args = None ->
         endDate args = Some d -> dateSeconds d = Some e ->
         taken_at lastSecond = e + 86399 ->
         taken_at nextSecond = e + 86400 ->
         recentPostsOf dateSeconds args [lastSecond; nextSecond] = [lastSecond]).
Proof.
  intros Hstart Hend. split.
  - intros allPosts post Hts. unfold recentPostsOf. rewrite filter_In.
    unfold inPeriod.
    assert (Hlo : (if truthy_opt_Z (startOf dateSeconds (startDate args))
                   then or0 (startOf dateSeconds (startDate args)) <=? taken_at post
                   else true) = true
                  <-> forall d s, startDate args = Some d -> dateSeconds d = Some s ->
                                  s <= taken_at post).
    { destruct (startDate args) as [d|] eqn:Ed.
      - destruct (Hstart d eq_refl) as (Hd & s & Hs).
        rewrite (isAfterStart_spec dateSeconds d s _ Hd Hs Hts), Z.leb_le.
        split.
        + intros H d' s' [= <-] Hs'. congruence.
        + intros H. exact (H d s eq_refl Hs).
      - simpl. split; [discriminate|reflexivity]. }
    assert (Hhi : (if truthy_opt_Z (endOf dateSeconds (endDate args))
                   then taken_at post <=? or0 (endOf dateSeconds (endDate args))
                   else true) = true
                  <-> forall d e, endDate args = Some d -> dateSeconds d = Some e ->
                                  taken_at post <= e + 86399).
    { destruct (endDate args) as [d|] eqn:Ed.
      - destruct (Hend d eq_refl) as (Hd & e & He & Hday).
        rewrite (isBeforeEnd_spec dateSeconds d e _ Hd He Hday), Z.leb_le.
        split.
        + intros H d' e' [= <-] He'. congruence.
        + intros H. exact (H d e eq_refl He).
      - simpl. split; [discriminate|reflexivity]. }
    rewrite andb_true_iff, Hlo, Hhi. reflexivity.
  - intros d e lastSecond nextSecond Hnone Hd He Hlast Hnext.
    destruct (Hend d Hd) as (Hne & e' & He' & Hday).
    assert (e' = e) by congruence. subst e'.
    unfold recentPostsOf, inPeriod. simpl. rewrite Hnone, Hd. simpl.
    rewrite !(isBeforeEnd_spec dateSeconds d e _ Hne He Hday).
    rewrite Hlast, Hnext.
    destruct (Z.leb_spec (e + 86399) (e + 86399)); [|lia].
    destruct (Z.leb_spec (e + 86400) (e + 86399)); [lia|]. reflexivity.
Qed.

(** January 2024: a post of the last second of the 31st is kept, the
    one of the next second is dropped. *)
Lemma date_range_filter_witness :
  let args := mkGenerateReportArgs "busy" (Some "2024-01-01") (Some "2024-01-31") in
  let p := mkPost "Cabc" (Some 1) (Some 1) 1706745599 in
  let q := mkPost "Cdef" (Some 1) (Some 1) 1706745600 in
  (In p (recentPostsOf isoDateSeconds args [p; q]) <->
   In p [p; q]
   /\ (forall d s, startDate args = Some d -> isoDateSeconds d = Some s -> s <= taken_at p)
   /\ (forall d e, endDate args = Some d -> isoDateSeconds d = Some e ->
                   taken_at p <= e + 86399))
  /\ recentPostsOf isoDateSeconds (mkGenerateReportArgs "busy" None (Some "2024-01-31")) [p; q]
     = [p].
Proof.
  intros args p q. split.
  - apply (proj1 (date_range_filter isoDateSeconds args
             ltac:(intros d [= <-]; split; [discriminate|eexists; reflexivity])
             ltac:(intros d [= <-]; split; [discriminate|eexists; split; reflexivity]))).
    simpl. lia.
  - apply (proj2 (date_range_filter isoDateSeconds
                    (mkGenerateReportArgs "busy" None (Some "2024-01-31"))
             ltac:(intros d; discriminate)
             ltac:(intros d [= <-]; split; [discriminate|eexists; split; reflexivity]))
             "2024-01-31" 1706659200 p q); reflexivity.
Defined.

(* ===================================================================== *)
(** ** Comparison of accounts *)
(* ===================================================================== *)

Section CompareFacts.
Context {V : Type}.

(** The own properties of the object built by the loop: for each handle of
    the list other than [__proto__], what was stored for it; nothing for
    another handle; and the key [__proto__] is never made an own
    property. *)
Lemma own_fold_setProperty_other (f : string -> V) (l : list string)
    (obj : JsObject V) (k : string) :
  ~ In k l ->
  own (fold_left (fun o u => setProperty u (f u) o) l obj) !! k = own obj !! k.
Proof.
  revert obj. induction l as [|u l IH]; intros obj Hnin; simpl; [reflexivity|].
  rewrite IH by (simpl in Hnin; tauto).
  unfold setProperty. destruct (String.eqb u "__proto__"); simpl; [reflexivity|].
  apply lookup_insert_ne. simpl in Hnin. tauto.
Qed.

Lemma own_fold_setProperty_proto (f : string -> V) (l : list string)
    (obj : JsObject V) :
  own (fold_left (fun o u => setProperty u (f u) o) l obj) !! "__proto__"
  = own obj !! "__proto__".
Proof.
  revert obj. induction l as [|u l IH]; intros obj; simpl; [reflexivity|].
  rewrite IH. unfold setProperty.
  destruct (String.eqb u "__proto__") eqn:E; simpl; [reflexivity|].
  apply lookup_insert_ne. apply String.eqb_neq. exact E.
Qed.

Lemma own_fold_setProperty (f : string -> V) (l : list string)
    (obj : JsObject V) (k : string) :
  In k l -> k <> "__proto__" ->
  own (fold_left (fun o u => setProperty u (f u) o) l obj) !! k = Some (f k).
Proof.
  revert obj. induction l as [|u l IH]; intros obj Hin Hk; simpl; [contradiction|].
  destruct (in_dec string_dec k l) as [Hl|Hl]; [apply IH; assumption|].
  destruct Hin as [->|Hin]; [|contradiction].
  rewrite own_fold_setProperty_other by exact Hl.
  unfold setProperty. rewrite (proj2 (String.eqb_neq k "__proto__") Hk). simpl.
  apply lookup_insert_eq.
Qed.

(** The last handle [__proto__] of the list gives the prototype. *)
Lemma proto_fold_setProperty (f : string -> V) (l : list string) (obj : JsObject V) :
  ~ In "__proto__" l ->
  proto (fold_left (fun o u => setProperty u (f u) o) l obj) = proto obj.
Proof.
  revert obj. induction l as [|u l IH]; intros obj Hnin; simpl; [reflexivity|].
  rewrite IH by (simpl in Hnin; tauto).
  unfold setProperty. destruct (String.eqb u "__proto__") eqn:E; simpl; [|reflexivity].
  apply String.eqb_eq in E. simpl in Hnin. subst u. tauto.
Qed.
End CompareFacts.

(** [handleCompareAccounts] survives the failure of an account. For every
    non-empty list of valid handles the call returns a result; the own
    properties of the result are the handles of the list other than
    [__proto__]; the entry of an account whose lookups succeeded is its
    metrics, and the entry of an account one of whose lookups failed, with
    [IgNotFoundError] or any other error, is an [{error}] entry; the
    accounts after a failed one are processed all the same. *)
Lemma compare_accounts_entries (ig : IgClient) (args : CompareAccountsArgs) :
  accounts args <> [] ->
  (forall acc, In acc (accounts args) -> isValidUsername acc = true) ->
  exists results,
    handleCompareAccounts ig args = Ok results
    /\ (forall dateSeconds,
           runTool dateSeconds ig (compare_accounts args) = Ok (AccountComparisonResult results))
    /\ (forall username,
           own results !! username <> None
           <-> In username (accounts args) /\ username <> "__proto__")
    /\ (forall username m,
           In username (accounts args) -> username <> "__proto__" ->
           fetchAccountMetrics ig (default defaultMetrics (metrics args)) username = Ok m ->
           own results !! username = Some (MetricsEntry m))
    /\ (forall username error,
           In username (accounts args) -> username <> "__proto__" ->
           fetchAccountMetrics ig (default defaultMetrics (metrics args)) username
           = Throw error ->
           own results !! username = Some (accountError error)
           /\ is_error_entry (accountError error) = true).
Proof.
  intros Hne Hvalid. unfold runTool, handleCompareAccounts.
  destruct (accounts args) as [|a l] eqn:Ea; [contradiction|].
  change (length (a :: l) =? 0)%nat with false. cbv iota.
  replace (existsb (fun acc => negb (isValidUsername acc)) (a :: l)) with false.
  2:{ symmetry. apply not_true_is_false. intros H. apply existsb_exists in H.
      destruct H as (x & Hin & Hx). rewrite (Hvalid x Hin) in Hx. discriminate. }
  eexists. split; [reflexivity|]. split; [reflexivity|].
  split; [|split].
  - intros username.
    destruct (string_dec username "__proto__") as [->|Hk].
    { rewrite own_fold_setProperty_proto. unfold emptyObject. cbn [own].
      rewrite lookup_empty. tauto. }
    destruct (in_dec string_dec username (a :: l)) as [Hin|Hnin].
    + rewrite own_fold_setProperty by assumption. split; [intros _; split; assumption|discriminate].
    + rewrite own_fold_setProperty_other by exact Hnin. unfold emptyObject. cbn [own].
      rewrite lookup_empty. tauto.
  - intros username m Hin Hk Hm. rewrite own_fold_setProperty by assumption.
    unfold compareAccount. rewrite Hm. reflexivity.
  - intros username error Hin Hk He. rewrite own_fold_setProperty by assumption.
    unfold compareAccount. rewrite He.
    split; [reflexivity|]. unfold accountError.
    destruct (ErrorName_eqb (name error) IgNotFoundError); reflexivity.
Qed.

(** The example of the specification: a known account and a handle that
    does not exist. *)
Lemma compare_accounts_entries_example :
  exists results,
    handleCompareAccounts oneAccount
      (mkCompareAccountsArgs ["realuser"; "doesnotexist123456"] None) = Ok results
    /\ own results !! "doesnotexist123456" = Some (ErrorEntry "Account not found.")
    /\ exists m, own results !! "realuser" = Some (MetricsEntry m).
Proof.
  destruct (compare_accounts_entries oneAccount
              (mkCompareAccountsArgs ["realuser"; "doesnotexist123456"] None)
              ltac:(discriminate)
              ltac:(intros acc [<-|[<-|[]]]; reflexivity))
    as (results & Hok & _ & _ & Hmetrics & Herror).
  exists results. split; [exact Hok|]. split.
  - exact (proj1 (Herror "doesnotexist123456" notFound
                    ltac:(right; left; reflexivity) ltac:(discriminate) eq_refl)).
  - eexists. apply Hmetrics; [left; reflexivity|discriminate|reflexivity].
Defined.

(** C7: [handleCompareAccounts] loses the entry of the handle
    [__proto__]. The handle passes [isValidUsername]; for every client and
    every non-empty list of valid handles the call returns a result, and
    that result has no own property [__proto__], whether the lookups of
    that account succeed or fail: [comparisonResults[username] = ...]
    replaces the prototype of the result instead. So for the accounts
    [realuser] and [__proto__] the result holds the metrics of [realuser]
    and neither a metrics entry nor an [{error}] entry for the second
    handle, whose [{error}] object has become the prototype. *)
Theorem compare_accounts_loses_proto_handle :
  isValidUsername "__proto__" = true
  /\ (forall ig args results,
         handleCompareAccounts ig args = Ok results ->
         own results !! "__proto__" = None)
  /\ (forall ig args results,
         handleCompareAccounts ig args = Ok results ->
         last (accounts args) = Some "__proto__" ->
         proto results
         = Some (compareAccount ig (default defaultMetrics (metrics args)) "__proto__"))
  /\ exists results m,
      handleCompareAccounts oneAccount
        (mkCompareAccountsArgs ["realuser"; "__proto__"] None) = Ok results
      /\ own results = {[ "realuser" := MetricsEntry m ]}
      /\ proto results = Some (ErrorEntry "Account not found.").
Proof.
  split; [reflexivity|]. split; [|split].
  - intros ig args results. unfold handleCompareAccounts.
    destruct (length (accounts args) =? 0)%nat; [discriminate|].
    destruct (existsb _ (accounts args)); [discriminate|].
    intros [= <-]. rewrite own_fold_setProperty_proto. apply lookup_empty.
  - intros ig args results. unfold handleCompareAccounts.
    destruct (length (accounts args) =? 0)%nat; [discriminate|].
    destruct (existsb _ (accounts args)); [discriminate|].
    intros [= <-] Hlast.
    destruct (accounts args) as [|a l] using rev_ind; [discriminate|].
    rewrite last_snoc in Hlast. injection Hlast as ->.
    rewrite fold_left_app. reflexivity.
  - eexists. eexists. split; [reflexivity|]. split.
    + simpl. rewrite insert_empty. reflexivity.
    + reflexivity.
Qed.

(* ===================================================================== *)
(** ** Resolution of a post *)
(* ===================================================================== *)

Section UrlFacts.
Lemma strip_prefix_app (p s r : string) :
  strip_prefix p s = Some r -> s = p +:+ r.
Proof.
  revert s. induction p as [|a p IH]; intros s; simpl.
  - intros [= ->]. reflexivity.
  - destruct s as [|b s]; [discriminate|].
    destruct (Ascii.eqb_spec a b) as [->|]; [|discriminate].
    intros H. rewrite (IH _ H). reflexivity.
Qed.

(** In a valid post URL the first [/p/] followed by a shortcode
    character is the one after the host. *)
Lemma extract_after_host (c : string) :
  truthy_string (take_code c) = true ->
  extractPostIdFromUrl ("https://www.instagram.com/p/" +:+ c) = take_code c
  /\ extractPostIdFromUrl ("https://instagram.com/p/" +:+ c) = take_code c.
Proof.
  intros H. split; simpl; change ("" +:+ c) with c; rewrite H; reflexivity.
Qed.

Lemma valid_post_url_shape (url : string) :
  isValidPostUrl url = true ->
  exists c, (url = "https://www.instagram.com/p/" +:+ c
             \/ url = "https://instagram.com/p/" +:+ c)
            /\ truthy_string (take_code c) = true.
Proof.
  unfold isValidPostUrl.
  destruct (strip_prefix "https://" url) as [r|] eqn:E1; [|discriminate].
  apply strip_prefix_app in E1. subst url.
  assert (Hpath : forall r0,
             match strip_prefix "instagram.com/p/" r0 with
             | Some c => truthy_string (take_code c)
             | None => false
             end = true ->
             exists c, r0 = "instagram.com/p/" +:+ c /\ truthy_string (take_code c) = true).
  { intros r0. destruct (strip_prefix "instagram.com/p/" r0) as [c|] eqn:E; [|discriminate].
    intros H. exists c. split; [apply strip_prefix_app; exact E|exact H]. }
  destruct (strip_prefix "www." r) as [r'|] eqn:E2.
  - apply strip_prefix_app in E2. subst r. intros H. apply orb_true_iff in H.
    destruct H as [H|H]; apply Hpath in H; destruct H as (c & Hc & Ht).
    + subst r'. exists c. split; [left; reflexivity|exact Ht].
    + discriminate Hc.
  - intros H. apply Hpath in H. destruct H as (c & -> & Ht).
    exists c. split; [right; reflexivity|exact Ht].
Qed.

Lemma valid_post_url_shortcode (url : string) :
  isValidPostUrl url = true -> truthy_string (extractPostIdFromUrl url) = true.
Proof.
  intros H. destruct (valid_post_url_shape url H) as (c & [->| ->] & Ht).
  - rewrite (proj1 (extract_after_host c Ht)). exact Ht.
  - rewrite (proj2 (extract_after_host c Ht)). exact Ht.
Qed.
End UrlFacts.

(** C8 as the specification states it fails: when [getByUrl] answers without
    a [pk], the resolution of a valid post URL returns [null] and the
    operation fails; the shortcode is not used. *)
Lemma post_resolution_counterexample :
  isValidPostUrl "https://www.instagram.com/p/Cabc123/" = true
  /\ extractPostIdFromUrl "https://www.instagram.com/p/Cabc123/" = "Cabc123"
  /\ call_getByUrl noPk "https://www.instagram.com/p/Cabc123/" = Ok (Some (mkMediaInfo None))
  /\ getMediaIdFromUrl noPk "https://www.instagram.com/p/Cabc123/" = None
  /\ handleAnalyzePostComments noPk
       (mkAnalyzeCommentsArgs "https://www.instagram.com/p/Cabc123/" None)
     = Throw (McpError InvalidParams "Could not extract media ID from post URL.").
Proof. repeat split; reflexivity. Qed.

(** C8 (amended): for every syntactically valid post URL the shortcode
    is there, and when the direct lookup throws, because the method is
    absent or because it fails, [getMediaIdFromUrl] returns the shortcode
    as the id; when the lookup answers with a [pk] the id is that [pk];
    when the lookup answers without one, [getMediaIdFromUrl] returns
    [null] and the operation fails with [InvalidParams]. *)
Theorem post_resolution_fallback (ig : IgClient) (url : string) :
  isValidPostUrl url = true ->
  truthy_string (extractPostIdFromUrl url) = true
  /\ (forall e, call_getByUrl ig url = Throw e ->
                getMediaIdFromUrl ig url = Some (extractPostIdFromUrl url))
  /\ (media_getByUrl ig = None ->
      getMediaIdFromUrl ig url = Some (extractPostIdFromUrl url))
  /\ (forall info id, call_getByUrl ig url = Ok (Some info) ->
                      media_pk info = Some id -> id <> "" ->
                      getMediaIdFromUrl ig url = Some id)
  /\ (forall answer, call_getByUrl ig url = Ok answer ->
                     truthy_opt_string (answer ≫= media_pk) = false ->
                     getMediaIdFromUrl ig url = None
                     /\ forall maxComments,
                         handleAnalyzePostComments ig (mkAnalyzeCommentsArgs url maxComments)
                         = Throw (McpError InvalidParams
                                    "Could not extract media ID from post URL.")).
Proof.
  intros Hvalid. pose proof (valid_post_url_shortcode url Hvalid) as Hcode.
  assert (Hthrow : forall e, call_getByUrl ig url = Throw e ->
                             getMediaIdFromUrl ig url = Some (extractPostIdFromUrl url)).
  { intros e He. unfold getMediaIdFromUrl. rewrite Hcode, He. simpl. rewrite Hcode.
    reflexivity. }
  split; [exact Hcode|]. split; [exact Hthrow|]. split; [|split].
  - intros Habsent. eapply Hthrow. unfold call_getByUrl. rewrite Habsent. reflexivity.
  - intros info id Hcall Hpk Hid. unfold getMediaIdFromUrl. rewrite Hcode, Hcall. simpl.
    rewrite Hpk. simpl. destruct id; [contradiction|]. reflexivity.
  - intros answer Hcall Hno.
    assert (Hnone : getMediaIdFromUrl ig url = None).
    { unfold getMediaIdFromUrl. rewrite Hcode, Hcall. simpl.
      destruct answer as [info|]; simpl in *; [rewrite Hno|]; reflexivity. }
    split; [exact Hnone|]. intros maxComments. unfold handleAnalyzePostComments. simpl.
    rewrite Hvalid, Hnone. reflexivity.
Qed.

Lemma post_resolution_fallback_witness :
  getMediaIdFromUrl offline "https://www.instagram.com/p/Cabc123/" = Some "Cabc123".
Proof.
  exact (proj1 (proj2 (proj2 (post_resolution_fallback offline
                                "https://www.instagram.com/p/Cabc123/" eq_refl)))
               eq_refl).
Defined.

(* ===================================================================== *)
(** ** Session *)
(* ===================================================================== *)

Section SessionFacts.
Variable dateSeconds : string -> option Z.

(** An authenticated session is left alone, without a call on the
    client. *)
Lemma login_when_authenticated ig s :
  isLoggedIn s = true -> loginToInstagram ig s = (true, s, []).
Proof. intros H. unfold loginToInstagram. rewrite H. reflexivity. Qed.

(** A failed login leaves the session unauthenticated. *)
Lemma login_failure ig s e :
  isLoggedIn s = false -> account_login ig = Throw e ->
  loginToInstagram ig s = (false, s, [GenerateDevice; AccountLogin]).
Proof. intros H He. unfold loginToInstagram. rewrite H, He. reflexivity. Qed.

Lemma login_success ig s :
  isLoggedIn s = false -> account_login ig = Ok tt ->
  loginToInstagram ig s = (true, mkSession true, [GenerateDevice; AccountLogin]).
Proof. intros H He. unfold loginToInstagram. rewrite H, He. reflexivity. Qed.

(** The [catch] of the request handler resets the session on the two
    errors of the client that tell of a lost session. *)
Lemma mapToolError_invalidates s e :
  name e = IgLoginRequiredError \/ name e = IgCheckpointError ->
  snd (mapToolError s (ApiError e)) = mkSession false.
Proof. intros [H|H]; unfold mapToolError; rewrite H; reflexivity. Qed.

Lemma mapToolError_McpError s e :
  isMcpError e = true -> mapToolError s e = (e, s).
Proof. destruct e; [reflexivity|discriminate]. Qed.

(** Every handler wraps the errors of the client in an [McpError] of
    its own before the request handler sees them. *)
Lemma resolveTarget_throws ig input e :
  resolveTarget ig input = Throw e -> isMcpError e = true.
Proof.
  unfold resolveTarget.
  destruct (isValidPostUrl input).
  - destruct (getMediaIdFromUrl ig input); [discriminate|]. intros [= <-]. reflexivity.
  - destruct (isValidUsername input); [|intros [= <-]; reflexivity].
    destruct (user_getIdByUsername ig input) as [userId|err]; [discriminate|].
    destruct (ErrorName_eqb (name err) IgNotFoundError); intros [= <-]; reflexivity.
Qed.

Lemma handleAnalyzePostComments_throws ig args e :
  handleAnalyzePostComments ig args = Throw e -> isMcpError e = true.
Proof.
  unfold handleAnalyzePostComments.
  destruct (negb (isValidPostUrl (postUrl args))); [intros [= <-]; reflexivity|].
  destruct (getMediaIdFromUrl ig (postUrl args)) as [mediaId|]; [|intros [= <-]; reflexivity].
  destruct (do r <- _; _) as [analysis|err]; [discriminate|].
  destruct (ErrorName_eqb (name err) IgNotFoundError); intros [= <-]; reflexivity.
Qed.

Lemma handleCompareAccounts_throws ig args e :
  handleCompareAccounts ig args = Throw e -> isMcpError e = true.
Proof.
  unfold handleCompareAccounts.
  destruct (length (accounts args) =? 0)%nat; [intros [= <-]; reflexivity|].
  destruct (existsb _ (accounts args)); [intros [= <-]; reflexivity|discriminate].
Qed.

Lemma handleExtractDemographics_throws ig args e :
  handleExtractDemographics ig args = Throw e -> isMcpError e = true.
Proof.
  unfold handleExtractDemographics.
  destruct (resolveTarget ig (demo_accountOrPostUrl args)) as [target|err] eqn:E; simpl.
  - destruct (sampleUsers ig _ target) as [users|err]; [discriminate|].
    destruct (ErrorName_eqb (name err) IgNotFoundError); intros [= <-]; reflexivity.
  - intros [= <-]. eapply resolveTarget_throws. exact E.
Qed.

Lemma handleIdentifyLeads_throws ig args e :
  handleIdentifyLeads ig args = Throw e -> isMcpError e = true.
Proof.
  unfold handleIdentifyLeads.
  destruct (resolveTarget ig (leads_accountOrPostUrl args)) as [target|err] eqn:E; simpl.
  - destruct (usersOf ig target) as [users|err]; [discriminate|].
    destruct (ErrorName_eqb (name err) IgNotFoundError); intros [= <-]; reflexivity.
  - intros [= <-]. eapply resolveTarget_throws. exact E.
Qed.

Lemma handleGenerateReport_throws ig args e :
  handleGenerateReport dateSeconds ig args = Throw e -> isMcpError e = true.
Proof.
  unfold handleGenerateReport.
  destruct (negb (isValidUsername (account args))); [intros [= <-]; reflexivity|].
  destruct (do userId <- _; _) as [report|err]; [discriminate|].
  destruct (ErrorName_eqb (name err) IgNotFoundError); intros [= <-]; reflexivity.
Qed.

Lemma runTool_throws ig call e :
  runTool dateSeconds ig call = Throw e -> isMcpError e = true.
Proof.
  destruct call as [args|args|args|args|args|toolName]; simpl.
  - destruct (handleAnalyzePostComments ig args) eqn:E; simpl; [discriminate|].
    intros [= <-]. eapply handleAnalyzePostComments_throws. exact E.
  - destruct (handleCompareAccounts ig args) eqn:E; simpl; [discriminate|].
    intros [= <-]. eapply handleCompareAccounts_throws. exact E.
  - destruct (handleExtractDemographics ig args) eqn:E; simpl; [discriminate|].
    intros [= <-]. eapply handleExtractDemographics_throws. exact E.
  - destruct (handleIdentifyLeads ig args) eqn:E; simpl; [discriminate|].
    intros [= <-]. eapply handleIdentifyLeads_throws. exact E.
  - destruct (handleGenerateReport dateSeconds ig args) eqn:E; simpl; [discriminate|].
    intros [= <-]. eapply handleGenerateReport_throws. exact E.
  - intros [= <-]. reflexivity.
Qed.

(** So no request ends an authenticated session. *)
Lemma callTool_keeps_session ig call :
  snd (fst (callTool dateSeconds ig (mkSession true) call)) = mkSession true.
Proof.
  unfold callTool. simpl.
  destruct (runTool dateSeconds ig call) as [r|e] eqn:E; [reflexivity|].
  rewrite (mapToolError_McpError _ _ (runTool_throws _ _ _ E)). reflexivity.
Qed.
End SessionFacts.

(** C9 at its failing input: the session is authenticated, the comment
    feed of the post answers [IgLoginRequiredError], and
    [handleAnalyzePostComments] rethrows it as an [McpError]; the request
    handler passes an [McpError] on without looking at the cause, so the
    session stays authenticated and the next request makes no login. The
    same holds for every request: no tool call resets the session. *)
Theorem session_survives_login_required :
  let call := analyze_post_comments
                (mkAnalyzeCommentsArgs "https://www.instagram.com/p/Cabc123/" None) in
  items (feed_mediaComments expired "3141592653") = Throw loginRequired
  /\ callTool isoDateSeconds expired (mkSession true) call
     = (Throw (McpError InternalError "Failed to fetch or analyze comments: login_required"),
        mkSession true, [])
  /\ snd (callTool isoDateSeconds expired (mkSession true) call) = []
  /\ forall dateSeconds ig call',
       snd (fst (callTool dateSeconds ig (mkSession true) call')) = mkSession true.
Proof.
  intros call. split; [reflexivity|]. split; [reflexivity|]. split; [reflexivity|].
  exact callTool_keeps_session.
Qed.

(* ===================================================================== *)
(** ** Further properties: validation of the input *)
(* ===================================================================== *)

Section MoreUrlFacts.
Lemma append_cons (c : ascii) (s t : string) : String c s +:+ t = String c (s +:+ t).
Proof. reflexivity. Qed.

Lemma take_code_chars (s : string) : forall_chars is_code_char (take_code s) = true.
Proof.
  induction s as [|c s IH]; simpl; [reflexivity|].
  destruct (is_code_char c) eqn:E; simpl; [rewrite E; exact IH|reflexivity].
Qed.

Lemma take_code_split (s : string) :
  exists rest, s = take_code s +:+ rest /\ take_code rest = "".
Proof.
  induction s as [|c s (rest & Hs & Hrest)]; simpl.
  - exists "". split; reflexivity.
  - destruct (is_code_char c) eqn:E.
    + exists rest. split; [|exact Hrest]. rewrite append_cons, <- Hs. reflexivity.
    + exists (String c s). split; [reflexivity|]. simpl. rewrite E. reflexivity.
Qed.

Lemma extract_chars (url : string) :
  forall_chars is_code_char (extractPostIdFromUrl url) = true.
Proof.
  induction url as [|c url IH].
  - reflexivity.
  - cbn [extractPostIdFromUrl].
    destruct (truthy_string _) eqn:E; [|exact IH].
    destruct (strip_prefix "/p/" (String c url)); [apply take_code_chars|reflexivity].
Qed.

End MoreUrlFacts.

(** X1: the shortcode that [extractPostIdFromUrl] returns is made of the
    characters [A-Za-z0-9_-] only, whatever the input; for an input that
    [isValidPostUrl] accepts it is not empty, and the input is the host
    ([https://www.instagram.com] or [https://instagram.com]), then [/p/],
    then that shortcode, then a rest that does not go on with a shortcode
    character: the whole path segment is extracted. *)
Theorem shortcode_of_valid_url :
  (forall url, forall_chars is_code_char (extractPostIdFromUrl url) = true)
  /\ (forall url,
         isValidPostUrl url = true ->
         extractPostIdFromUrl url <> ""
         /\ exists host rest,
             (host = "https://www.instagram.com" \/ host = "https://instagram.com")
             /\ url = host +:+ "/p/" +:+ extractPostIdFromUrl url +:+ rest
             /\ take_code rest = "").
Proof.
  split; [exact extract_chars|].
  intros url Hvalid.
  destruct (valid_post_url_shape url Hvalid) as (c & Hshape & Ht).
  destruct (take_code_split c) as (rest & Hc & Hrest).
  assert (Hne : take_code c <> "").
  { intros E. rewrite E in Ht. discriminate. }
  destruct Hshape as [-> | ->].
  - rewrite (proj1 (extract_after_host c Ht)). split; [exact Hne|].
    exists "https://www.instagram.com", rest. split; [left; reflexivity|].
    split; [|exact Hrest]. simpl. rewrite <- Hc. reflexivity.
  - rewrite (proj2 (extract_after_host c Ht)). split; [exact Hne|].
    exists "https://instagram.com", rest. split; [right; reflexivity|].
    split; [|exact Hrest]. simpl. rewrite <- Hc. reflexivity.
Qed.

Lemma shortcode_of_valid_url_witness :
  extractPostIdFromUrl "https://instagram.com/p/B-x_9/?igshid=1" <> ""
  /\ exists host rest,
      (host = "https://www.instagram.com" \/ host = "https://instagram.com")
      /\ "https://instagram.com/p/B-x_9/?igshid=1"
         = host +:+ "/p/" +:+ extractPostIdFromUrl "https://instagram.com/p/B-x_9/?igshid=1"
           +:+ rest
      /\ take_code rest = "".
Proof.
  exact (proj2 shortcode_of_valid_url "https://instagram.com/p/B-x_9/?igshid=1" eq_refl).
Defined.

(** X2: the two validators never accept the same input: a string that
    [isValidPostUrl] accepts is rejected by [isValidUsername] (it holds a
    colon), so the order in which [handleExtractDemographics] and
    [handleIdentifyLeads] try them decides nothing, and an input taken for
    a post is never looked up as a handle. *)
Theorem post_url_is_no_username (ig : IgClient) (input : string) :
  isValidPostUrl input = true ->
  isValidUsername input = false
  /\ resolveTarget ig input
     = match getMediaIdFromUrl ig input with
       | Some mediaId => Ok (PostTarget mediaId)
       | None => Throw (McpError InvalidParams "Could not extract media ID from post URL.")
       end.
Proof.
  intros Hvalid. split.
  - destruct (valid_post_url_shape input Hvalid) as (c & [-> | ->] & _);
      unfold isValidUsername; simpl; reflexivity.
  - unfold resolveTarget. rewrite Hvalid.
    destruct (getMediaIdFromUrl ig input); reflexivity.
Qed.

Lemma post_url_is_no_username_witness :
  isValidUsername "https://www.instagram.com/p/Cabc123/" = false
  /\ resolveTarget offline "https://www.instagram.com/p/Cabc123/" = Ok (PostTarget "Cabc123").
Proof.
  exact (post_url_is_no_username offline "https://www.instagram.com/p/Cabc123/" eq_refl).
Defined.

(* ===================================================================== *)
(** ** Further properties: the fetch loops *)
(* ===================================================================== *)

Section MoreFetchFacts.
Context {T : Type}.
Implicit Types (feed : Feed T) (acc page : list T).

Lemma available_pagesOf feed : available feed = concat (pagesOf feed).
Proof.
  induction feed as [e|page|page next IH]; simpl.
  - reflexivity.
  - rewrite app_nil_r. reflexivity.
  - rewrite IH. reflexivity.
Qed.

(** The loop reads the pages in order and stops at the first one with
    which the count reaches the target. *)
Lemma fetchLoop_pages target feed acc reqs r :
  fetchLoop target feed acc (Z.of_nat (length acc)) reqs = Ok r ->
  exists k,
    requests r = (reqs + S k)%nat
    /\ (S k <= length (pagesOf feed))%nat
    /\ fetched r = acc ++ concat (take (S k) (pagesOf feed))
    /\ (k = 0%nat \/ Z.of_nat (length (acc ++ concat (take k (pagesOf feed)))) < target).
Proof.
  revert acc reqs.
  induction feed as [e|page|page next IH]; intros acc reqs; simpl.
  - discriminate.
  - intros [= <-]. exists 0%nat. simpl. rewrite app_nil_r.
    repeat split; lia.
  - destruct (Z.leb_spec target (Z.of_nat (length acc) + Z.of_nat (length page))).
    + intros [= <-]. exists 0%nat. simpl. rewrite app_nil_r.
      repeat split; lia.
    + replace (Z.of_nat (length acc) + Z.of_nat (length page))
        with (Z.of_nat (length (acc ++ page))) by (rewrite length_app; lia).
      intros Hrun. destruct (IH _ _ Hrun) as (k & Hreq & Hk & Hfetched & Hbefore).
      exists (S k). split; [lia|]. split; [lia|]. split.
      * rewrite Hfetched, <- app_assoc. reflexivity.
      * right. destruct Hbefore as [-> | Hlt].
        -- simpl. rewrite app_nil_r, length_app. lia.
        -- cbn [take concat]. rewrite app_assoc. exact Hlt.
Qed.

Lemma length_concat_nonempty (pages : list (list T)) :
  (forall page, In page pages -> page <> []) ->
  (length pages <= length (concat pages))%nat.
Proof.
  induction pages as [|page pages IH]; intros H; simpl; [lia|].
  rewrite length_app.
  assert (page <> []) by (apply H; left; reflexivity).
  assert (length pages <= length (concat pages))%nat
    by (apply IH; intros p Hp; apply H; right; exact Hp).
  destruct page; [contradiction|]. simpl. lia.
Qed.
End MoreFetchFacts.

(** X3: with a target [> 0], the accumulation of
    [handleAnalyzePostComments] and of the account branch of
    [handleExtractDemographics], when it returns, returns the first
    [target] items of the feed (all of them when the feed holds fewer),
    in the order of the feed; it requests the pages one after the other
    and no page beyond the first one with which the target is reached:
    the pages before the last requested one hold fewer than [target]
    items together. *)
Theorem accumulation_stops_at_target {T} (target : Z) (feed : Feed T) (r : Fetched T) :
  0 < target ->
  fetchComments target feed = Ok r \/ fetchFollowers target feed = Ok r ->
  fetched r = take (Z.to_nat target) (available feed)
  /\ (1 <= requests r <= length (pagesOf feed))%nat
  /\ Z.of_nat (length (concat (take (requests r - 1) (pagesOf feed)))) < target.
Proof.
  intros Hpos Hrun.
  assert (H : fetchComments target feed = Ok r) by (destruct Hrun as [H|H]; exact H).
  clear Hrun. unfold fetchComments in H.
  destruct (fetchLoop target feed [] 0 0) as [r0|e] eqn:E; simpl in H; [|discriminate].
  injection H as <-. simpl.
  destruct (fetchLoop_pages target feed [] 0%nat r0 E) as (k & Hreq & Hk & Hfetched & Hbefore).
  destruct (fetchLoop_accumulates target feed [] 0%nat r0 E) as (rest & Hav & _ & Hor).
  simpl in Hav. rewrite drop_0 in Hav. simpl in Hfetched, Hbefore.
  rewrite slice_0_positive by lia. split; [|split].
  - rewrite Hav. destruct Hor as [-> | Hlen].
    + rewrite app_nil_r. reflexivity.
    + rewrite take_app_le by lia. reflexivity.
  - lia.
  - rewrite Hreq. replace (0 + S k - 1)%nat with k by lia.
    destruct Hbefore as [-> | Hlt]; [simpl; lia|exact Hlt].
Qed.

Lemma accumulation_stops_at_target_witness :
  let feed := FeedMore [1; 2] (FeedMore [3; 4] (FeedMore [5; 6] (FeedThrows unavailable))) in
  fetched (mkFetched [1; 2; 3] 2) = take (Z.to_nat 3) (available feed)
  /\ (1 <= requests (mkFetched [1; 2; 3] 2) <= length (pagesOf feed))%nat
  /\ Z.of_nat (length (concat (take (requests (mkFetched [1; 2; 3] 2) - 1) (pagesOf feed)))) < 3.
Proof.
  intros feed.
  exact (accumulation_stops_at_target 3 feed (mkFetched [1; 2; 3] 2)
           ltac:(lia) (or_introl eq_refl)).
Defined.

(** X4: the loop of [handleGenerateReport], when it returns, has read
    the pages of the feed in order and kept all their posts; the pages
    before the last requested one hold fewer than 200 posts together, so
    the loop stops with the page that brings the count to 200 or with the
    last page of the feed; and a feed without empty pages is asked for
    at most 200 pages. *)
Theorem report_fetch_bounded {T} (feed : Feed T) (r : Fetched T) :
  fetchPosts feed = Ok r ->
  (1 <= requests r <= length (pagesOf feed))%nat
  /\ fetched r = concat (take (requests r) (pagesOf feed))
  /\ Z.of_nat (length (concat (take (requests r - 1) (pagesOf feed)))) < 200
  /\ (200 <= Z.of_nat (length (fetched r)) \/ fetched r = available feed)
  /\ ((forall page, In page (pagesOf feed) -> page <> []) -> (requests r <= 200)%nat).
Proof.
  unfold fetchPosts. rewrite fetchPostsLoop_fetchLoop. intros E.
  destruct (fetchLoop_pages _ feed [] 0%nat r E) as (k & Hreq & Hk & Hfetched & Hbefore).
  destruct (fetchLoop_accumulates _ feed [] 0%nat r E) as (rest & Hav & _ & Hor).
  simpl in Hav. rewrite drop_0 in Hav. simpl in Hfetched, Hbefore.
  assert (Hlt : Z.of_nat (length (concat (take k (pagesOf feed)))) < 200).
  { destruct Hbefore as [-> | Hlt]; [simpl; lia|exact Hlt]. }
  split; [lia|]. split; [rewrite Hreq; exact Hfetched|].
  split; [rewrite Hreq; replace (0 + S k - 1)%nat with k by lia; exact Hlt|].
  split.
  - destruct Hor as [-> | Hlen]; [right; rewrite Hav, app_nil_r; reflexivity|left; exact Hlen].
  - intros Hpages.
    assert (length (take k (pagesOf feed)) <= length (concat (take k (pagesOf feed))))%nat.
    { apply length_concat_nonempty. intros page Hin. apply Hpages.
      rewrite <- (take_drop k (pagesOf feed)). apply in_or_app. left. exact Hin. }
    rewrite length_take in H. lia.
Qed.

Lemma report_fetch_bounded_witness :
  exists r, fetchPosts (feed_user busyAccount 7) = Ok r
            /\ requests r = 2%nat
            /\ Z.of_nat (length (concat (take (requests r - 1)
                                          (pagesOf (feed_user busyAccount 7))))) < 200.
Proof.
  exists (mkFetched (repeat somePost 300) 2).
  split; [vm_compute; reflexivity|]. split; [reflexivity|].
  exact (proj1 (proj2 (proj2 (report_fetch_bounded (feed_user busyAccount 7)
                                (mkFetched (repeat somePost 300) 2)
                                ltac:(vm_compute; reflexivity))))).
Defined.

(* ===================================================================== *)
(** ** Further properties: the request handler *)
(* ===================================================================== *)

Section MoreHandlerFacts.
Variable dateSeconds : string -> option Z.

Lemma resolveTarget_failure ig input e :
  resolveTarget ig input = Throw e -> isToolFailure e = true.
Proof.
  unfold resolveTarget.
  destruct (isValidPostUrl input).
  - destruct (getMediaIdFromUrl ig input); [discriminate|]. intros [= <-]. reflexivity.
  - destruct (isValidUsername input); [|intros [= <-]; reflexivity].
    destruct (user_getIdByUsername ig input) as [userId|err]; [discriminate|].
    destruct (ErrorName_eqb (name err) IgNotFoundError); intros [= <-]; reflexivity.
Qed.

Lemma handlers_failure ig :
  (forall args e, handleAnalyzePostComments ig args = Throw e -> isToolFailure e = true)
  /\ (forall args e, handleCompareAccounts ig args = Throw e -> isToolFailure e = true)
  /\ (forall args e, handleExtractDemographics ig args = Throw e -> isToolFailure e = true)
  /\ (forall args e, handleIdentifyLeads ig args = Throw e -> isToolFailure e = true)
  /\ (forall args e, handleGenerateReport dateSeconds ig args = Throw e ->
                     isToolFailure e = true).
Proof.
  repeat split; intros args e.
  - unfold handleAnalyzePostComments.
    destruct (negb (isValidPostUrl (postUrl args))); [intros [= <-]; reflexivity|].
    destruct (getMediaIdFromUrl ig (postUrl args)) as [mediaId|]; [|intros [= <-]; reflexivity].
    destruct (do r <- _; _) as [analysis|err]; [discriminate|].
    destruct (ErrorName_eqb (name err) IgNotFoundError); intros [= <-]; reflexivity.
  - unfold handleCompareAccounts.
    destruct (length (accounts args) =? 0)%nat; [intros [= <-]; reflexivity|].
    destruct (existsb _ (accounts args)); [intros [= <-]; reflexivity|discriminate].
  - unfold handleExtractDemographics.
    destruct (resolveTarget ig (demo_accountOrPostUrl args)) as [target|err] eqn:E; simpl.
    + destruct (sampleUsers ig _ target) as [users|err]; [discriminate|].
      destruct (ErrorName_eqb (name err) IgNotFoundError); intros [= <-]; reflexivity.
    + intros [= <-]. eapply resolveTarget_failure. exact E.
  - unfold handleIdentifyLeads.
    destruct (resolveTarget ig (leads_accountOrPostUrl args)) as [target|err] eqn:E; simpl.
    + destruct (usersOf ig target) as [users|err]; [discriminate|].
      destruct (ErrorName_eqb (name err) IgNotFoundError); intros [= <-]; reflexivity.
    + intros [= <-]. eapply resolveTarget_failure. exact E.
  - unfold handleGenerateReport.
    destruct (negb (isValidUsername (account args))); [intros [= <-]; reflexivity|].
    destruct (do userId <- _; _) as [report|err]; [discriminate|].
    destruct (ErrorName_eqb (name err) IgNotFoundError); intros [= <-]; reflexivity.
Qed.

Lemma runTool_failure ig call e :
  runTool dateSeconds ig call = Throw e ->
  isToolFailure e = true
  \/ exists toolName, call = unknown_tool toolName
                      /\ e = McpError MethodNotFound ("Tool " +:+ toolName +:+ " not found").
Proof.
  destruct (handlers_failure ig) as (Ha & Hc & Hd & Hl & Hr).
  destruct call as [args|args|args|args|args|toolName]; simpl.
  - destruct (handleAnalyzePostComments ig args) eqn:E; simpl; [discriminate|].
    intros [= <-]. left. eapply Ha. exact E.
  - destruct (handleCompareAccounts ig args) eqn:E; simpl; [discriminate|].
    intros [= <-]. left. eapply Hc. exact E.
  - destruct (handleExtractDemographics ig args) eqn:E; simpl; [discriminate|].
    intros [= <-]. left. eapply Hd. exact E.
  - destruct (handleIdentifyLeads ig args) eqn:E; simpl; [discriminate|].
    intros [= <-]. left. eapply Hl. exact E.
  - destruct (handleGenerateReport dateSeconds ig args) eqn:E; simpl; [discriminate|].
    intros [= <-]. left. eapply Hr. exact E.
  - intros [= <-]. right. exists toolName. split; reflexivity.
Qed.
End MoreHandlerFacts.

(** X5: a request on an unauthenticated session logs in first, with one
    [generateDevice] and one [login]. When the login fails, the request
    is rejected with [InternalError] "Failed to authenticate with
    Instagram" whatever the tool and its arguments, no handler runs and
    the session stays unauthenticated; when it succeeds, the request
    resolves or rejects exactly as it does on a session that was
    authenticated before. *)
Theorem login_gate (dateSeconds : string -> option Z) (ig : IgClient) (s : Session)
    (call : ToolCall) :
  isLoggedIn s = false ->
  (forall e, account_login ig = Throw e ->
             callTool dateSeconds ig s call
             = (Throw (McpError InternalError "Failed to authenticate with Instagram"),
                s, [GenerateDevice; AccountLogin]))
  /\ (account_login ig = Ok tt ->
      snd (callTool dateSeconds ig s call) = [GenerateDevice; AccountLogin]
      /\ fst (fst (callTool dateSeconds ig s call))
         = fst (fst (callTool dateSeconds ig (mkSession true) call))).
Proof.
  intros Hs. split.
  - intros e He. unfold callTool, loginToInstagram. rewrite Hs, He. reflexivity.
  - intros Hok. unfold callTool, loginToInstagram. rewrite Hs, Hok. simpl.
    destruct (runTool dateSeconds ig call) as [r|e] eqn:E; [split; reflexivity|].
    rewrite !(mapToolError_McpError _ _ (runTool_throws _ _ _ _ E)). split; reflexivity.
Qed.

Lemma login_gate_witness :
  callTool isoDateSeconds offline (mkSession false) (unknown_tool "ping")
  = (Throw (McpError InternalError "Failed to authenticate with Instagram"),
     mkSession false, [GenerateDevice; AccountLogin]).
Proof.
  exact (proj1 (login_gate isoDateSeconds offline (mkSession false) (unknown_tool "ping")
                  eq_refl) unavailable eq_refl).
Defined.

(** X6: whatever the client answers, a request is rejected only with an
    [McpError], and for the five known tools its code is [InvalidParams]
    or [InternalError]: [MethodNotFound] is the rejection of an unknown
    tool name, and of nothing else. *)
Theorem rejections_classified (dateSeconds : string -> option Z) (ig : IgClient)
    (s : Session) (call : ToolCall) (e : Thrown) :
  fst (fst (callTool dateSeconds ig s call)) = Throw e ->
  isMcpError e = true
  /\ (isToolFailure e = true
      \/ exists toolName,
          call = unknown_tool toolName
          /\ e = McpError MethodNotFound ("Tool " +:+ toolName +:+ " not found")).
Proof.
  unfold callTool.
  destruct (loginToInstagram ig s) as [[loggedIn s1] calls].
  destruct loggedIn; simpl.
  - destruct (runTool dateSeconds ig call) as [r|err] eqn:E; simpl; [discriminate|].
    pose proof (runTool_throws _ _ _ _ E) as Hmcp.
    rewrite (mapToolError_McpError _ _ Hmcp). simpl. intros [= <-].
    split; [exact Hmcp|]. eapply runTool_failure. exact E.
  - intros [= <-]. split; [reflexivity|]. left. reflexivity.
Qed.

Lemma rejections_classified_witness :
  isMcpError (McpError MethodNotFound "Tool ping not found") = true
  /\ (isToolFailure (McpError MethodNotFound "Tool ping not found") = true
      \/ exists toolName,
          unknown_tool "ping" = unknown_tool toolName
          /\ McpError MethodNotFound "Tool ping not found"
             = McpError MethodNotFound ("Tool " +:+ toolName +:+ " not found")).
Proof.
  exact (rejections_classified isoDateSeconds lonely (mkSession false) (unknown_tool "ping")
           (McpError MethodNotFound "Tool ping not found") eq_refl).
Defined.

(** X7: a date of the report that is absent, empty, or that [Date] does
    not parse puts no bound: with such a start and such an end, every
    fetched post is in the period, in the order of the feed. The same
    holds for a start date that is the epoch itself. *)
Theorem unusable_dates_put_no_bound (dateSeconds : string -> option Z)
    (args : GenerateReportArgs) (allPosts : list Post) :
  (forall d, startDate args = Some d ->
             d = "" \/ dateSeconds d = None \/ dateSeconds d = Some 0) ->
  (forall d, endDate args = Some d -> d = "" \/ dateSeconds d = None) ->
  recentPostsOf dateSeconds args allPosts = allPosts.
Proof.
  intros Hstart Hend. unfold recentPostsOf.
  assert (Hs : truthy_opt_Z (startOf dateSeconds (startDate args)) = false).
  { unfold startOf. destruct (startDate args) as [d|]; [|reflexivity].
    destruct (Hstart d eq_refl) as [-> | [H | H]]; [reflexivity| |];
      destruct (truthy_string d); try reflexivity; rewrite H; reflexivity. }
  assert (He : truthy_opt_Z (endOf dateSeconds (endDate args)) = false).
  { unfold endOf. destruct (endDate args) as [d|]; [|reflexivity].
    destruct (Hend d eq_refl) as [-> | H]; [reflexivity|].
    destruct (truthy_string d); [rewrite H|]; reflexivity. }
  induction allPosts as [|p l IH]; simpl; [reflexivity|].
  unfold inPeriod at 1. rewrite Hs, He. simpl. rewrite IH. reflexivity.
Qed.

Lemma unusable_dates_put_no_bound_witness :
  recentPostsOf isoDateSeconds (mkGenerateReportArgs "busy" (Some "last week") (Some ""))
                [somePost; somePost]
  = [somePost; somePost].
Proof.
  apply unusable_dates_put_no_bound.
  - intros d [= <-]. right. left. reflexivity.
  - intros d [= <-]. left. reflexivity.
Defined.

(* ===================================================================== *)
(** ** Further properties: the users of identify_leads *)
(* ===================================================================== *)

Section MoreUserMapFacts.
Implicit Types (m : UserMap) (k : Z).

Lemma commentTotal_snoc m k u :
  commentTotal (m ++ [(k, u)]) = (commentTotal m + length (comments u))%nat.
Proof.
  unfold commentTotal. induction m as [|e m IH]; simpl; [lia|]. rewrite IH. lia.
Qed.

Lemma commentTotal_push m k t :
  map_has m k = true -> commentTotal (push_comment m k t) = S (commentTotal m).
Proof.
  unfold map_has, commentTotal. induction m as [|[k' u] m IH]; simpl; [discriminate|].
  destruct (k' =? k); simpl.
  - intros _. rewrite length_app. simpl. lia.
  - intros H. rewrite (IH H). lia.
Qed.

Lemma filed_push m k t : filedUnderOwnPk m -> filedUnderOwnPk (push_comment m k t).
Proof.
  unfold filedUnderOwnPk, keys. induction m as [|[k' u] m IH]; simpl; [reflexivity|].
  intros [= H1 H2]. destruct (k' =? k); simpl.
  - rewrite H1, H2. reflexivity.
  - rewrite H1, (IH H2). reflexivity.
Qed.

Lemma filed_snoc m u : filedUnderOwnPk m -> filedUnderOwnPk (m ++ [(pk (profile u), u)]).
Proof.
  unfold filedUnderOwnPk, keys. rewrite !map_app. simpl. intros ->. reflexivity.
Qed.

Lemma aggregateComments_filed cs : filedUnderOwnPk (aggregateComments cs).
Proof.
  induction cs as [|c cs IH] using rev_ind; [reflexivity|].
  rewrite aggregateComments_snoc. unfold addComment.
  destruct (negb (map_has (aggregateComments cs) (pk (user c)))).
  - apply (filed_snoc _ (mkEngagedUser (user c) [text c])). exact IH.
  - apply filed_push. exact IH.
Qed.

Lemma aggregateFollowers_filed fs :
  filedUnderOwnPk (aggregateFollowers fs)
  /\ Forall (fun e => comments (snd e) = []) (aggregateFollowers fs).
Proof.
  induction fs as [|f fs [IH1 IH2]] using rev_ind; [split; [reflexivity|constructor]|].
  rewrite aggregateFollowers_snoc. unfold addFollower.
  destruct (negb (map_has (aggregateFollowers fs) (pk f))); [|split; assumption].
  split.
  - apply (filed_snoc _ (mkEngagedUser f [])). exact IH1.
  - apply Forall_app. split; [exact IH2|]. repeat constructor.
Qed.
End MoreUserMapFacts.

(** X8: the aggregation of [handleIdentifyLeads] loses and repeats no
    comment: the records built from a page of comments hold as many
    texts, all together, as the page has comments, and each record sits
    under the pk of its own user object; the records built from a page
    of followers hold no text at all. *)
Theorem aggregation_keeps_every_comment :
  (forall cs : list Comment,
      commentTotal (aggregateComments cs) = length cs
      /\ filedUnderOwnPk (aggregateComments cs))
  /\ (forall fs : list UserInfo,
         commentTotal (aggregateFollowers fs) = 0%nat
         /\ filedUnderOwnPk (aggregateFollowers fs)
         /\ Forall (fun e => comments (snd e) = []) (aggregateFollowers fs)).
Proof.
  split.
  - intros cs. split; [|apply aggregateComments_filed].
    induction cs as [|c cs IH] using rev_ind; [reflexivity|].
    rewrite aggregateComments_snoc, length_app. unfold addComment. simpl.
    destruct (map_has (aggregateComments cs) (pk (user c))) eqn:E; simpl.
    + rewrite commentTotal_push by exact E. lia.
    + rewrite commentTotal_snoc. simpl. lia.
  - intros fs. destruct (aggregateFollowers_filed fs) as [Hfiled Hnone].
    split; [|split; assumption]. clear Hfiled.
    unfold commentTotal. induction Hnone as [|e m He _ IH]; simpl; [reflexivity|].
    rewrite He, IH. reflexivity.
Qed.

Section MoreCriteriaFacts.
Implicit Types (c : Criteria) (u : EngagedUser).

Lemma threshold_none (o : option Z) : threshold o = None <-> truthy_opt_Z o = false.
Proof.
  destruct o as [z|]; simpl; [|tauto]. unfold truthy_Z.
  destruct (z =? 0); simpl; split; congruence.
Qed.

Lemma enrich_not_needed ig c u :
  lacksFollowers c (profile u) || lacksBiography c (profile u) = false ->
  enrich ig c u = Some (profile u).
Proof. intros H. unfold enrich. rewrite H. reflexivity. Qed.

Lemma no_criteria_lead ig c u :
  threshold (minFollowers c) = None -> threshold (minComments c) = None ->
  keywords c = None ->
  evaluateUser ig c u
  = Some {| lead_name := username (profile u);
            lead_userId := pk (profile u);
            lead_fullName := full_name (profile u);
            lead_followerCount := follower_count (profile u);
            lead_isPrivate := is_private (profile u);
            reasons := [];
            sampleComment := substring0 100 <$> head (comments u) |}.
Proof.
  intros Hf Hc Hk.
  assert (He : enrich ig c u = Some (profile u)).
  { apply enrich_not_needed. unfold lacksFollowers, lacksBiography.
    rewrite (proj1 (threshold_none _) Hf), Hk. reflexivity. }
  rewrite (evaluateUser_enriched _ _ _ _ He).
  unfold amended_meetsCriteria, followersOk, commentsOk, keywordsOk, amended_reasons,
    followersReasons, commentsReasons, keywordsReasons.
  rewrite Hf, Hc, Hk. reflexivity.
Qed.

Lemma potentialLeadsOf_cons ig c (e : Z * EngagedUser) (m : UserMap) :
  potentialLeadsOf ig c (e :: m)
  = match evaluateUser ig c (snd e) with
    | Some lead => lead :: potentialLeadsOf ig c m
    | None => potentialLeadsOf ig c m
    end.
Proof. reflexivity. Qed.
End MoreCriteriaFacts.

(** X9: without criteria (none given, or thresholds of 0 and no
    keywords) every user of the page is a lead, with no reason and
    without a detail fetch: for a post, [handleIdentifyLeads] returns the
    distinct commenters of the first page of comments, in the order of
    their first comment, cut to the first 50. *)
Theorem no_criteria_everyone_is_lead (ig : IgClient) (input mediaId : string)
    (c : option Criteria) (cs : list Comment) :
  resolveTarget ig input = Ok (PostTarget mediaId) ->
  items (feed_mediaComments ig mediaId) = Ok cs ->
  threshold (minFollowers (default noCriteria c)) = None ->
  threshold (minComments (default noCriteria c)) = None ->
  keywords (default noCriteria c) = None ->
  exists leads,
    handleIdentifyLeads ig (mkIdentifyLeadsArgs input c) = Ok leads
    /\ map lead_userId leads
       = take 50 (firstOccurrences (map (fun c => pk (user c)) cs))
    /\ Forall (fun lead => reasons lead = []) leads.
Proof.
  intros Htarget Hitems Hf Hc Hk. unfold handleIdentifyLeads. simpl.
  rewrite Htarget. simpl. rewrite Hitems. simpl.
  eexists. split; [reflexivity|].
  rewrite slice_0_positive by lia. change (Z.to_nat 50) with 50%nat.
  assert (Hleads : potentialLeadsOf ig (default noCriteria c) (aggregateComments cs)
                   = map (fun e =>
                            {| lead_name := username (profile (snd e));
                               lead_userId := pk (profile (snd e));
                               lead_fullName := full_name (profile (snd e));
                               lead_followerCount := follower_count (profile (snd e));
                               lead_isPrivate := is_private (profile (snd e));
                               reasons := [];
                               sampleComment :=
                                 substring0 100 <$> head (comments (snd e)) |})
                         (aggregateComments cs)).
  { induction (aggregateComments cs) as [|e m IH]; [reflexivity|].
    rewrite potentialLeadsOf_cons, (no_criteria_lead ig _ (snd e) Hf Hc Hk), IH.
    reflexivity. }
  rewrite Hleads. split.
  - rewrite <- keys_aggregateComments, <- (aggregateComments_filed cs).
    rewrite <- firstn_map, map_map. reflexivity.
  - apply Forall_forall. intros lead Hin.
    apply list_elem_of_In in Hin.
    assert (Hin' : In lead (map (fun e =>
                            {| lead_name := username (profile (snd e));
                               lead_userId := pk (profile (snd e));
                               lead_fullName := full_name (profile (snd e));
                               lead_followerCount := follower_count (profile (snd e));
                               lead_isPrivate := is_private (profile (snd e));
                               reasons := [];
                               sampleComment :=
                                 substring0 100 <$> head (comments (snd e)) |})
                         (aggregateComments cs))).
    { rewrite <- (take_drop 50 (map _ (aggregateComments cs))). apply in_or_app. left.
      exact Hin. }
    apply in_map_iff in Hin'. destruct Hin' as (e & <- & _). reflexivity.
Qed.

Lemma no_criteria_everyone_is_lead_witness :
  exists leads,
    handleIdentifyLeads commented
      (mkIdentifyLeadsArgs "https://www.instagram.com/p/Cabc123/" None) = Ok leads
    /\ map lead_userId leads = [8; 9]
    /\ Forall (fun lead => reasons lead = []) leads.
Proof.
  destruct (no_criteria_everyone_is_lead commented "https://www.instagram.com/p/Cabc123/"
              "Cabc123" None threeComments eq_refl eq_refl eq_refl eq_refl eq_refl)
    as (leads & Hok & Hids & Hreasons).
  exists leads. split; [exact Hok|]. split; [exact Hids|exact Hreasons].
Defined.

(** X10: the loop of [handleIdentifyLeads] reads the full profile of a
    user only when the record in hand lacks a follower count that
    minFollowers needs, or a biography while keywords are given;
    otherwise the evaluation of the user does not depend on the client.
    When the profile is needed, a user whose pk is 0 is skipped; a fetch
    that fails drops the user if the follower count was the missing part
    and otherwise lets the record in hand be evaluated; a fetch that
    succeeds makes the fetched profile the one the checks and the fields
    of the lead are read from. *)
Theorem detail_fetch_policy (ig : IgClient) (c : Criteria) (u : EngagedUser) :
  (lacksFollowers c (profile u) || lacksBiography c (profile u) = false ->
   forall ig', evaluateUser ig' c u = evaluateUser ig c u)
  /\ (lacksFollowers c (profile u) || lacksBiography c (profile u) = true ->
      (pk (profile u) = 0 -> evaluateUser ig c u = None)
      /\ (forall e, pk (profile u) <> 0 -> user_info ig (pk (profile u)) = Throw e ->
                    defined (evaluateUser ig c u)
                    = negb (lacksFollowers c (profile u))
                      && amended_meetsCriteria c (profile u) u)
      /\ (forall info, pk (profile u) <> 0 -> user_info ig (pk (profile u)) = Ok info ->
                       defined (evaluateUser ig c u) = amended_meetsCriteria c info u
                       /\ forall lead, evaluateUser ig c u = Some lead ->
                                       lead_userId lead = pk info
                                       /\ lead_name lead = username info
                                       /\ lead_followerCount lead = follower_count info)).
Proof.
  split.
  - intros H ig'.
    rewrite (evaluateUser_enriched ig' c u _ (enrich_not_needed ig' c u H)).
    rewrite (evaluateUser_enriched ig c u _ (enrich_not_needed ig c u H)). reflexivity.
  - intros H. split; [|split].
    + intros Hpk. unfold evaluateUser, enrich. rewrite H, Hpk. reflexivity.
    + intros e Hpk He.
      assert (Hpk' : truthy_Z (pk (profile u)) = true).
      { unfold truthy_Z. destruct (Z.eqb_spec (pk (profile u)) 0); [contradiction|reflexivity]. }
      destruct (lacksFollowers c (profile u)) eqn:Hl.
      * unfold evaluateUser, enrich. rewrite Hl. simpl. rewrite Hpk', He. reflexivity.
      * assert (Hen : enrich ig c u = Some (profile u)).
        { unfold enrich. rewrite Hl. simpl in *. rewrite H, Hpk', He. reflexivity. }
        rewrite (evaluateUser_enriched _ _ _ _ Hen).
        destruct (amended_meetsCriteria c (profile u) u); reflexivity.
    + intros info Hpk Hinfo.
      assert (Hpk' : truthy_Z (pk (profile u)) = true).
      { unfold truthy_Z. destruct (Z.eqb_spec (pk (profile u)) 0); [contradiction|reflexivity]. }
      assert (Hen : enrich ig c u = Some info).
      { unfold enrich. rewrite H, Hpk', Hinfo. reflexivity. }
      rewrite (evaluateUser_enriched _ _ _ _ Hen).
      destruct (amended_meetsCriteria c info u); simpl.
      * split; [reflexivity|]. intros lead [= <-]. simpl. repeat split.
      * split; [reflexivity|]. discriminate.
Qed.

(** A commenter without follower count, against minFollowers = 100,
    while profiles cannot be read: the user is dropped. *)
Lemma detail_fetch_policy_witness :
  defined (evaluateUser commented (mkCriteria None (Some 100) None)
             (mkEngagedUser (someUser 8 "bob" None) ["nice"]))
  = negb (lacksFollowers (mkCriteria None (Some 100) None) (someUser 8 "bob" None))
    && amended_meetsCriteria (mkCriteria None (Some 100) None) (someUser 8 "bob" None)
         (mkEngagedUser (someUser 8 "bob" None) ["nice"]).
Proof.
  exact (proj1 (proj2 (proj2 (detail_fetch_policy commented (mkCriteria None (Some 100) None)
                                (mkEngagedUser (someUser 8 "bob" None) ["nice"])) eq_refl))
               unavailable ltac:(discriminate) eq_refl).
Defined.

(* ===================================================================== *)
(** ** Further properties: the media id *)
(* ===================================================================== *)

(** X11: [getMediaIdFromUrl] never returns an empty id: what it returns
    is the [pk] of the answer of [getByUrl], or else the shortcode of the
    link when the lookup threw; and for an input without a shortcode it
    returns [null] whatever the client would answer. *)
Theorem media_id_is_truthy (ig : IgClient) (url : string) :
  (forall mediaId,
      getMediaIdFromUrl ig url = Some mediaId ->
      mediaId <> ""
      /\ ((exists info, call_getByUrl ig url = Ok (Some info) /\ media_pk info = Some mediaId)
          \/ (exists e, call_getByUrl ig url = Throw e)
             /\ mediaId = extractPostIdFromUrl url))
  /\ (extractPostIdFromUrl url = "" -> getMediaIdFromUrl ig url = None).
Proof.
  split.
  - intros mediaId. unfold getMediaIdFromUrl.
    destruct (truthy_string (extractPostIdFromUrl url)) eqn:Hcode; simpl; [|discriminate].
    destruct (call_getByUrl ig url) as [[info|]|e] eqn:Hcall; simpl; try discriminate.
    + destruct (media_pk info) as [id|] eqn:Hpk; simpl; [|discriminate].
      destruct id as [|a id]; simpl; [discriminate|].
      intros [= <-]. split; [discriminate|]. left. exists info. split; [reflexivity|exact Hpk].
    + rewrite Hcode. simpl. intros [= <-]. split.
      * intros E. rewrite E in Hcode. discriminate.
      * right. split; [exists e; reflexivity|reflexivity].
  - intros E. unfold getMediaIdFromUrl. rewrite E. reflexivity.
Qed.

Lemma media_id_is_truthy_witness :
  "3141592653" <> ""
  /\ ((exists info, call_getByUrl expired "https://www.instagram.com/p/Cabc123/" = Ok (Some info)
                    /\ media_pk info = Some "3141592653")
      \/ (exists e, call_getByUrl expired "https://www.instagram.com/p/Cabc123/" = Throw e)
         /\ "3141592653" = extractPostIdFromUrl "https://www.instagram.com/p/Cabc123/").
Proof.
  exact (proj1 (media_id_is_truthy expired "https://www.instagram.com/p/Cabc123/")
               "3141592653" eq_refl).
Defined.

(* ===================================================================== *)
(** ** Further properties: the results of the handlers *)
(* ===================================================================== *)

Section MoreResultFacts.
Lemma mapM_Forall2 {E A B} (f : A -> result E B) (l : list A) (ys : list B) :
  mapM f l = Ok ys -> Forall2 (fun x y => f x = Ok y) l ys.
Proof.
  revert ys. induction l as [|x l IH]; intros ys; simpl.
  - intros [= <-]. constructor.
  - destruct (f x) as [y|e] eqn:Ef; simpl; [|discriminate].
    destruct (mapM f l) as [ys'|e]; simpl; [|discriminate].
    intros [= <-]. constructor; [exact Ef|apply IH; reflexivity].
Qed.

Lemma substring0_length (n : nat) (s : string) : (String.length (substring0 n s) <= n)%nat.
Proof.
  revert s. induction n as [|n IH]; intros s; simpl; [lia|].
  destruct s as [|c s]; simpl; [lia|]. specialize (IH s). lia.
Qed.

Lemma slice_0_length {A} (n : Z) (l : list A) :
  0 <= n -> length (slice 0 n l) = Nat.min (Z.to_nat n) (length l).
Proof. intros H. rewrite slice_0_positive by exact H. apply length_take. Qed.

Lemma insertByLikes_perm (p : Post) (l : list Post) :
  Permutation (insertByLikes p l) (p :: l).
Proof.
  induction l as [|q l IH]; simpl; [reflexivity|].
  destruct (or0 (like_count p) <? or0 (like_count q)); [|reflexivity].
  rewrite IH. apply perm_swap.
Qed.

Lemma sortByLikes_perm (l : list Post) : Permutation (sortByLikes l) l.
Proof.
  induction l as [|p l IH]; simpl; [reflexivity|].
  rewrite insertByLikes_perm. apply perm_skip. exact IH.
Qed.

Lemma insertByLikes_sorted (p : Post) (l : list Post) :
  StronglySorted (fun a b => likes b <= likes a) l ->
  StronglySorted (fun a b => likes b <= likes a) (insertByLikes p l).
Proof.
  induction l as [|q l IH]; simpl; intros Hs.
  - constructor; constructor.
  - apply StronglySorted_inv in Hs. destruct Hs as [Hs Hq].
    fold (likes p). fold (likes q).
    destruct (Z.ltb_spec (likes p) (likes q)).
    + constructor; [apply IH; exact Hs|].
      eapply Permutation_Forall; [symmetry; apply insertByLikes_perm|].
      constructor; [lia|exact Hq].
    + constructor; [constructor; assumption|].
      constructor; [exact H|].
      eapply Forall_impl; [exact Hq|]. simpl. intros a Ha. lia.
Qed.

Lemma insertByLikes_stable (k : Z) (p : Post) (l : list Post) :
  List.filter (fun a => likes a =? k) (insertByLikes p l)
  = List.filter (fun a => likes a =? k) (p :: l).
Proof.
  induction l as [|q l IH]; [reflexivity|].
  cbn [insertByLikes]. fold (likes p). fold (likes q).
  destruct (Z.ltb_spec (likes p) (likes q)); [|reflexivity].
  cbn [List.filter] in *. rewrite IH.
  destruct (Z.eqb_spec (likes p) k), (Z.eqb_spec (likes q) k); try reflexivity. lia.
Qed.

Lemma Q_share (a b : Z) : 0 <= a <= b -> 0 < b ->
  (0 <= inject_Z a / inject_Z b <= 1)%Q.
Proof.
  intros Ha Hb.
  assert (Hb' : (0 < inject_Z b)%Q) by (unfold Qlt; simpl; lia).
  split.
  - apply Qle_shift_div_l; [exact Hb'|]. unfold Qle. simpl. lia.
  - apply Qle_shift_div_r; [exact Hb'|]. unfold Qle. simpl. lia.
Qed.
End MoreResultFacts.

Section MoreAnalysisFacts.
Opaque substring0.

Lemma analyzeComments_bounds (cs : list Comment) (a : CommentAnalysis) :
  analyzeComments cs = Ok a ->
  totalCommentsFetched a = length cs
  /\ length (sampleComments a) = Nat.min 5 (length cs)
  /\ (length (potentialLeads a) <= length cs)%nat
  /\ Forall (fun l => (String.length (lead_comment l) <= 100)%nat) (potentialLeads a)
  /\ Forall (fun s => (String.length (sample_text s) <= 100)%nat) (sampleComments a).
Proof.
  unfold analyzeComments.
  destruct (mapM _ (slice 0 5 cs)) as [samples|e] eqn:E; cbn [bind]; [|discriminate].
  intros [= <-]. cbn [totalCommentsFetched sampleComments potentialLeads].
  apply mapM_Forall2 in E.
  split; [reflexivity|]. split; [|split; [|split]].
  - rewrite <- (Forall2_length _ _ _ E). apply (slice_0_length 5). lia.
  - rewrite length_map. apply filter_length_le.
  - apply List.Forall_forall. intros l Hin. apply in_map_iff in Hin.
    destruct Hin as (c & <- & _). cbn [lead_comment]. apply substring0_length.
  - induction E as [|c s l l' Hc _ IH]; constructor; [|exact IH].
    destruct (toISOString (created_at_utc c * 1000)); cbn [bind] in Hc; [|discriminate].
    injection Hc as <-. cbn [sample_text]. apply substring0_length.
Qed.

Transparent substring0.

Lemma sampleUsers_length ig (n : Z) (t : Target) (users : list UserInfo) :
  0 < n -> sampleUsers ig n t = Ok users -> Z.of_nat (length users) <= n.
Proof.
  intros Hn. destruct t as [targetId|userIdNum]; simpl.
  - destruct (media_likers ig targetId) as [likers|e]; simpl; [|discriminate].
    intros [= <-]. rewrite slice_0_length by lia. lia.
  - unfold fetchFollowers.
    destruct (fetchLoop n _ [] 0 0) as [r|e]; simpl; [|discriminate].
    intros [= <-]. rewrite slice_0_length by lia. lia.
Qed.
End MoreAnalysisFacts.

(** X12: the analysis that [handleAnalyzePostComments] returns for a
    maxComments [> 0] (100 when absent) counts at most maxComments
    comments, holds the first 5 of them as samples (all of them when
    there are fewer) and at most as many potential leads as comments,
    and no comment text in it is longer than 100 characters. *)
Theorem comment_analysis_bounds (ig : IgClient) (args : AnalyzeCommentsArgs)
    (a : CommentAnalysis) :
  0 < default 100 (maxComments args) ->
  handleAnalyzePostComments ig args = Ok a ->
  Z.of_nat (totalCommentsFetched a) <= default 100 (maxComments args)
  /\ length (sampleComments a) = Nat.min 5 (totalCommentsFetched a)
  /\ (length (potentialLeads a) <= totalCommentsFetched a)%nat
  /\ Forall (fun l => (String.length (lead_comment l) <= 100)%nat) (potentialLeads a)
  /\ Forall (fun s => (String.length (sample_text s) <= 100)%nat) (sampleComments a).
Proof.
  intros Hmax. unfold handleAnalyzePostComments.
  destruct (negb (isValidPostUrl (postUrl args))); [discriminate|].
  destruct (getMediaIdFromUrl ig (postUrl args)) as [mediaId|]; [|discriminate].
  unfold fetchComments.
  destruct (fetchLoop _ (feed_mediaComments ig mediaId) [] 0 0) as [r|e]; simpl.
  - destruct (analyzeComments _) as [a'|e] eqn:E; simpl.
    + intros [= <-]. destruct (analyzeComments_bounds _ _ E) as (Ht & Hs & Hl & Hlc & Hsc).
      rewrite Ht. repeat split; try assumption.
      rewrite slice_0_length by lia. lia.
    + destruct (ErrorName_eqb (name e) IgNotFoundError); discriminate.
  - destruct (ErrorName_eqb (name e) IgNotFoundError); discriminate.
Qed.

Lemma comment_analysis_bounds_witness :
  exists a,
    handleAnalyzePostComments commented
      (mkAnalyzeCommentsArgs "https://www.instagram.com/p/Cabc123/" (Some 2)) = Ok a
    /\ Z.of_nat (totalCommentsFetched a) <= 2
    /\ length (sampleComments a) = Nat.min 5 (totalCommentsFetched a).
Proof.
  eexists. split; [reflexivity|].
  pose proof (comment_analysis_bounds commented
                (mkAnalyzeCommentsArgs "https://www.instagram.com/p/Cabc123/" (Some 2)) _
                ltac:(simpl; lia) eq_refl) as H.
  split; [exact (proj1 H)|exact (proj1 (proj2 H))].
Defined.

(** X13: the demographics that [handleExtractDemographics] returns for
    a sampleSize [> 0] (50 when absent) are over at least one and at most
    sampleSize users; the shares of private and of verified accounts are
    finite numbers between 0 and 1 (the division by the number of users
    is never a division by zero); and the profiles listed are the first
    5 users of the sample, or all of them. *)
Theorem demographics_shares (ig : IgClient) (args : ExtractDemographicsArgs)
    (d : Demographics) :
  0 < default 50 (sampleSize args) ->
  handleExtractDemographics ig args = Ok (DemographicsOf d) ->
  (0 < sampleAnalyzed d)%nat
  /\ Z.of_nat (sampleAnalyzed d) <= default 50 (sampleSize args)
  /\ (exists p, private_share d = Finite p /\ (0 <= p <= 1)%Q)
  /\ (exists v, verified_share d = Finite v /\ (0 <= v <= 1)%Q)
  /\ length (sampleUserProfiles d) = Nat.min 5 (sampleAnalyzed d).
Proof.
  intros Hsize. unfold handleExtractDemographics.
  destruct (resolveTarget ig (demo_accountOrPostUrl args)) as [target|e]; simpl;
    [|discriminate].
  destruct (sampleUsers ig _ target) as [users|e] eqn:Hs;
    [|destruct (ErrorName_eqb (name e) IgNotFoundError); discriminate].
  apply sampleUsers_length in Hs; [|exact Hsize].
  unfold demographicsOf. destruct users as [|u users]; [discriminate|].
  change (length (u :: users) =? 0)%nat with false. cbv iota.
  intros [= <-]. cbn [sampleAnalyzed private_share verified_share sampleUserProfiles].
  split; [simpl; lia|]. split; [exact Hs|].
  assert (Hshare : forall f : UserInfo -> bool,
             exists p, num_div (Finite (Qlen (List.filter f (u :: users)))) (Qlen (u :: users))
                       = Finite p /\ (0 <= p <= 1)%Q).
  { intros f. unfold num_div. rewrite Qlen_nonzero by discriminate.
    eexists. split; [reflexivity|]. unfold Qlen. apply Q_share.
    - pose proof (filter_length_le f (u :: users)). lia.
    - simpl. lia. }
  split; [apply Hshare|]. split; [apply Hshare|].
  rewrite length_map, slice_0_length by lia. reflexivity.
Qed.

Lemma demographics_shares_witness :
  exists d,
    handleExtractDemographics liked
      (mkExtractDemographicsArgs "https://www.instagram.com/p/Cabc123/" None)
    = Ok (DemographicsOf d)
    /\ (0 < sampleAnalyzed d)%nat
    /\ exists p, private_share d = Finite p /\ (0 <= p <= 1)%Q.
Proof.
  assert (E : exists d,
             handleExtractDemographics liked
               (mkExtractDemographicsArgs "https://www.instagram.com/p/Cabc123/" None)
             = Ok (DemographicsOf d)) by (eexists; reflexivity).
  destruct E as [d E]. exists d. split; [exact E|].
  pose proof (demographics_shares liked
                (mkExtractDemographicsArgs "https://www.instagram.com/p/Cabc123/" None) d
                ltac:(simpl; lia) E) as H.
  split; [exact (proj1 H)|exact (proj1 (proj2 (proj2 H)))].
Defined.

(** X14: the ranking of the report. [sortByLikes] returns the posts of
    the period, each once, by likes in descending order (a missing count
    as 0), and posts with equal likes stay in the order of the feed; the
    top posts are the first 3 of that ranking (all of them when there
    are fewer), with their like and comment counts as fetched. *)
Theorem top_posts_ranked (recentPosts : list Post) :
  Permutation (sortByLikes recentPosts) recentPosts
  /\ StronglySorted (fun a b => likes b <= likes a) (sortByLikes recentPosts)
  /\ (forall k, List.filter (fun a => likes a =? k) (sortByLikes recentPosts)
                = List.filter (fun a => likes a =? k) recentPosts)
  /\ (forall top,
         topPosts recentPosts = Ok top ->
         length top = Nat.min 3 (length recentPosts)
         /\ map top_likes top = map like_count (take 3 (sortByLikes recentPosts))
         /\ map top_comments top = map comment_count (take 3 (sortByLikes recentPosts))).
Proof.
  pose proof (sortByLikes_perm recentPosts) as Hperm.
  split; [exact Hperm|]. split; [|split].
  - clear Hperm. induction recentPosts as [|p l IH]; simpl; [constructor|].
    apply insertByLikes_sorted. exact IH.
  - intros k. clear Hperm. induction recentPosts as [|p l IH]; [reflexivity|].
    cbn [sortByLikes foldr]. fold (sortByLikes l).
    rewrite insertByLikes_stable. cbn [List.filter]. rewrite IH. reflexivity.
  - intros top. unfold topPosts. intros E. apply mapM_Forall2 in E.
    rewrite slice_0_positive in E by lia. change (Z.to_nat 3) with 3%nat in E.
    split.
    + rewrite <- (Forall2_length _ _ _ E), length_take.
      rewrite (Permutation_length Hperm). reflexivity.
    + induction E as [|p t l l' Hp _ IH]; [split; reflexivity|].
      destruct (toISOString (taken_at p * 1000)); simpl in Hp; [|discriminate].
      injection Hp as <-. destruct IH as [IH1 IH2]. simpl. rewrite IH1, IH2.
      split; reflexivity.
Qed.

Lemma top_posts_ranked_witness :
  let posts := [mkPost "a" (Some 3) (Some 1) 1706700000;
                mkPost "b" None (Some 1) 1706700001;
                mkPost "c" (Some 9) (Some 1) 1706700002;
                mkPost "d" (Some 3) (Some 1) 1706700003] in
  exists top, topPosts posts = Ok top
              /\ length top = Nat.min 3 (length posts)
              /\ map top_likes top = [Some 9; Some 3; Some 3].
Proof.
  intros posts. eexists. split; [reflexivity|].
  pose proof (proj2 (proj2 (proj2 (top_posts_ranked posts))) _ eq_refl) as H.
  split; [exact (proj1 H)|exact (proj1 (proj2 H))].
Defined.



(** X16: in [handleCompareAccounts] the posts of an account are
    requested only when it has followers. For an account whose id and
    profile were read and whose follower count is not [> 0], the entry is
    a metrics entry whatever the post feed would answer; with followers,
    a post feed that fails makes the entry of the account an error
    entry, and one that answers makes it a metrics entry. *)
Theorem posts_requested_only_with_followers (ig : IgClient) (metrics : list string)
    (username : string) (accountId : Z) (userInfo : UserInfo) :
  user_getIdByUsername ig username = Ok accountId ->
  user_info ig accountId = Ok userInfo ->
  (positive (follower_count userInfo) = false ->
   exists m, compareAccount ig metrics username = MetricsEntry m
             /\ userId m = accountId)
  /\ (positive (follower_count userInfo) = true ->
      (forall e, items (feed_user ig accountId) = Throw e ->
                 compareAccount ig metrics username = accountError e)
      /\ (forall recentPosts, items (feed_user ig accountId) = Ok recentPosts ->
                              exists m, compareAccount ig metrics username = MetricsEntry m)).
Proof.
  intros Hid Hinfo. unfold compareAccount, fetchAccountMetrics.
  rewrite Hid. simpl. rewrite Hinfo. simpl. unfold compareEngagementRate. split.
  - intros H. rewrite H. simpl. eexists. split; reflexivity.
  - intros H. rewrite H. split.
    + intros e He. rewrite He. reflexivity.
    + intros recentPosts Hp. rewrite Hp. simpl. eexists. reflexivity.
Qed.

Lemma posts_requested_only_with_followers_witness :
  compareAccount postsFail defaultMetrics "realuser"
  = ErrorEntry "Failed to fetch data: unavailable".
Proof.
  exact (proj1 (proj2 (posts_requested_only_with_followers postsFail defaultMetrics
                         "realuser" 42 (someUser 42 "realuser" (Some 200)) eq_refl eq_refl)
                      eq_refl)
               unavailable eq_refl).
Defined.
